(** * A2A protocol server: task store, request normaliser and task lifecycle

    Shallow embedding of [src/a2a/models.py] and [src/a2a/server.py]
    (functions [verify_api_key], [handle_task_send], [handle_task_get],
    [handle_task_cancel], and the endpoints of [create_a2a_app]: the
    JSON-RPC dispatcher [handle_jsonrpc] and the REST endpoints [task_send],
    [task_get], [task_cancel]). The LangGraph agent of
    [src/agent/graph.py] is the executor, kept abstract.

    Modelling choices:
    - request payloads are JSON values; a Python [dict] decoded from JSON is
      an association list where the last binding of a key wins and the key
      order is the order of first occurrence (as [json.loads] builds it);
      JSON numbers are integers (floats are out of scope);
    - Python exceptions are the constructors of [exn]; an exception does not
      roll back the mutations done before it was raised, so every stateful
      operation returns the new store together with its result;
    - the module-level [tasks] dict is a [gmap string Task.t]; the [Task]
      object stored under a key is never replaced after creation, so
      mutating "the task object" is modelled by writing it back under its key;
    - [uuid4()] is an oracle: the values it returns in a call are arguments;
    - [handle_task_send] is split at its only suspension point, the
      [await agent_graph.ainvoke(...)]: [send_start] runs up to the call and
      returns the conversation handed to the executor, [send_finish] runs the
      rest on the executor's reply. The executor (the LangGraph agent) is a
      black box: a function from the conversation to a reply or an error;
    - a Python [str] is a [string] whose characters are Latin-1 code points
      (0-255): header values reach the code decoded as Latin-1, and
      [A2A_API_KEY] is taken to be Latin-1 text as well;
    - [TaskStatus.timestamp] (wall clock) is not modelled. *)

From Stdlib Require Import String Ascii ZArith List Bool.
From stdpp Require Import base gmap strings list fin_maps.
Import ListNotations.
Open Scope string_scope.
Set Warnings "-register-all".

(* ------------------------------------------------------------------ *)
(** ** Python values and exceptions *)

(** JSON values as decoded by [json.loads] / pydantic's [dict[str, Any]]. *)
Inductive json :=
| JNull
| JBool (b : bool)
| JNum (z : Z)
| JStr (s : string)
| JArr (l : list json)
| JObj (d : list (string * json)).

Abbreviation dict := (list (string * json)).

(** The exceptions the modelled code can raise. *)
Inductive exn :=
| ValueError_no_content      (** [ValueError("No text content found ...")] *)
| ValueError_task_not_found  (** [ValueError("Task not found: ...")] *)
| AttributeError             (** [.get] on a value that is not a dict *)
| TypeError                  (** iterating a non-iterable, hashing a list/dict *)
| ValidationError            (** pydantic v2 rejecting a field value *)
| KeyError
| HTTPException (status_code : Z) (detail : string).

Inductive result (A : Type) :=
| Ok (a : A)
| Err (e : exn).
Arguments Ok {A} a.
Arguments Err {A} e.

Definition bind {A B} (r : result A) (k : A -> result B) : result B :=
  match r with Ok a => k a | Err e => Err e end.
Notation "'let*' x ':=' r 'in' k" := (bind r (fun x => k))
  (at level 200, x name, r at level 100, k at level 200).

(** Python truthiness: [bool(v)]. *)
Definition truthy (v : json) : bool :=
  match v with
  | JNull => false
  | JBool b => b
  | JNum z => negb (Z.eqb z 0)
  | JStr s => negb (String.eqb s "")
  | JArr l => negb (Nat.eqb (List.length l) 0)
  | JObj d => negb (Nat.eqb (List.length d) 0)
  end.

(** [a or b]: the first operand if it is truthy, else the second. *)
Definition py_or (a b : json) : json := if truthy a then a else b.

(** [d.get(k, default)]: the last binding of [k] wins. *)
Definition dict_get (k : string) (d : dict) : option json :=
  fold_left (fun acc '(k', v) => if String.eqb k' k then Some v else acc) d None.

Definition get_default (k : string) (d : dict) (default : json) : json :=
  match dict_get k d with Some v => v | None => default end.

(** [k in d]. *)
Definition has_key (k : string) (d : dict) : bool :=
  existsb (fun '(k', _) => String.eqb k' k) d.

(** The keys of a dict in insertion order (first occurrence). *)
Definition dict_keys (d : dict) : list string :=
  fold_left (fun acc '(k, _) =>
    if existsb (String.eqb k) acc then acc else app acc [k]) d [].

(** [for x in v]: lists yield their elements, strings their characters,
    dicts their keys; anything else raises [TypeError]. *)
Definition py_iter (v : json) : result (list json) :=
  match v with
  | JArr l => Ok l
  | JStr s => Ok (map (fun c => JStr (String c EmptyString)) (list_ascii_of_string s))
  | JObj d => Ok (map JStr (dict_keys d))
  | _ => Err TypeError
  end.

(** [v == "text"]. *)
Definition is_text_str (v : json) : bool :=
  match v with JStr s => String.eqb s "text" | _ => false end.

(* ------------------------------------------------------------------ *)
(** ** Models ([src/a2a/models.py]) *)

Inductive TaskState :=
| SUBMITTED | WORKING | INPUT_REQUIRED | COMPLETED | CANCELED | FAILED.

Module Part.
Record t := mk {
    type : string;
    text : option string;
    mimeType : option string;
    data : option string }.
End Part.

(** [Part(type="text", text=s)] *)
Definition text_part (s : string) : Part.t := Part.mk "text" (Some s) None None.

Module Message.
Record t := mk { role : string; parts : list Part.t }.
End Message.

Module Artifact.
Record t := mk {
    name : option string;
    description : option string;
    parts : list Part.t;
    index : Z;
    append : bool;
    lastChunk : bool }.
End Artifact.

Module TaskStatus.
Record t := mk { state : TaskState; message : option Message.t }.
End TaskStatus.

Module Task.
Record t := mk {
    id : string;
    sessionId : option string;
    status : TaskStatus.t;
    history : list Message.t;
    artifacts : list Artifact.t;
    metadata : dict }.
End Task.

(** The in-memory [tasks: dict[str, Task]]. *)
Abbreviation store := (gmap string Task.t).

(* ------------------------------------------------------------------ *)
(** ** String helpers: [str.replace] and [str.strip] *)

(** [str.isspace] on a Latin-1 character: \t \n \v \f \r, \x1c-\x1f,
    space, \x85 (NEL) and \xa0 (no-break space). *)
Definition is_py_space (c : ascii) : bool :=
  let n := nat_of_ascii c in
  ((9 <=? n) && (n <=? 13) || (28 <=? n) && (n <=? 32) || (n =? 133) || (n =? 160))%nat.

Fixpoint lstrip (s : string) : string :=
  match s with
  | EmptyString => EmptyString
  | String c s' => if is_py_space c then lstrip s' else s
  end.

Definition string_reverse (s : string) : string :=
  string_of_list_ascii (rev (list_ascii_of_string s)).

Definition rstrip (s : string) : string :=
  string_reverse (lstrip (string_reverse s)).

(** [s.strip()] *)
Definition py_strip (s : string) : string := rstrip (lstrip s).

(** [s.replace(old, new)] for a non-empty [old]: every non-overlapping
    occurrence, scanned from the left, is replaced. The fuel is the length
    of [s]; each step consumes at least one character. *)
Fixpoint replace_go (fuel : nat) (old new s : string) : string :=
  match fuel with
  | O => s
  | S f =>
      match s with
      | EmptyString => EmptyString
      | String c s' =>
          if String.prefix old s
          then new ++ replace_go f old new
                 (substring (String.length old) (String.length s) s)
          else String c (replace_go f old new s')
      end
  end.

Definition py_replace (old new s : string) : string :=
  replace_go (String.length s) old new s.

(* ------------------------------------------------------------------ *)
(** ** Authentication ([verify_api_key]) *)

(** [API_KEY = os.getenv("A2A_API_KEY", "demo-api-key-12345")]: the
    argument is the environment variable, [None] when it is unset. *)
Definition API_KEY (env : option string) : string :=
  match env with Some v => v | None => "demo-api-key-12345" end.

Definition verify_api_key (api_key : string) (authorization : option string)
  : result bool :=
  if String.eqb api_key "" then Ok true
  else match authorization with
  | None => Err (HTTPException 401%Z "Missing Authorization header")
  | Some a =>
      if String.eqb a "" then Err (HTTPException 401%Z "Missing Authorization header")
      else
        let token := py_strip (py_replace "Bearer " "" a) in
        if String.eqb token api_key then Ok true
        else Err (HTTPException 401%Z "Invalid API key")
  end.

(* ------------------------------------------------------------------ *)
(** ** Message extraction ([handle_task_send], lines 248-277) *)

(** The [for part in parts] loop: the first dict part whose [type] is
    ["text"] or that has a [text] key gives [part.get("text", "")], a plain
    string part gives itself; the loop breaks at the first such part, even
    when the text it gives is empty. *)
Fixpoint scan_parts (ps : list json) : json :=
  match ps with
  | [] => JStr ""
  | JObj d :: rest =>
      if is_text_str (get_default "type" d JNull) || has_key "text" d
      then get_default "text" d (JStr "")
      else scan_parts rest
  | JStr s :: _ => JStr s
  | _ :: rest => scan_parts rest
  end.

Definition extract_user_text (params : dict) : result json :=
  (* Format 1: {"message": {"role": "user", "parts": [...]}} *)
  let message_data := get_default "message" params (JObj []) in
  let* user_text :=
    (if truthy message_data then
       match message_data with
       | JObj md =>
           let* parts := py_iter (get_default "parts" md (JArr [])) in
           let u := scan_parts parts in
           (* direct text in message *)
           Ok (if truthy u then u
               else py_or (get_default "text" md (JStr ""))
                          (get_default "content" md (JStr "")))
       | _ => Err AttributeError
       end
     else Ok (JStr "")) in
  (* Format 2: {"text": ...} / {"content": ...} / {"query": ...} *)
  let user_text :=
    if truthy user_text then user_text
    else py_or (py_or (get_default "text" params (JStr ""))
                      (get_default "content" params (JStr "")))
               (get_default "query" params (JStr "")) in
  (* Format 3: {"prompt": ...} *)
  let user_text :=
    if truthy user_text then user_text else get_default "prompt" params (JStr "") in
  (* Format 4: {"input": ...} *)
  let user_text :=
    if truthy user_text then user_text else get_default "input" params (JStr "") in
  Ok user_text.

(* ------------------------------------------------------------------ *)
(** ** The executor boundary *)

(** LangChain messages: the conversation sent to the agent is made of
    [HumanMessage] and [AIMessage]; the agent's result may also contain
    system and tool messages ([OtherMessage]). *)
Inductive lc_message :=
| HumanMessage (content : string)
| AIMessage (content : string)
| OtherMessage (content : string).

(** [await agent_graph.ainvoke({"messages": ...})]: the resulting
    ["messages"] list, or an exception with its [str(e)]. *)
Inductive exec_result :=
| Reply (messages : list lc_message)
| Raised (description : string).

(** Lines 296-303: every part with a truthy text becomes one turn, a
    [HumanMessage] for role ["user"] and an [AIMessage] otherwise. *)
Definition build_conversation (history : list Message.t) : list lc_message :=
  flat_map (fun msg =>
    flat_map (fun part =>
      match Part.text part with
      | Some s =>
          if String.eqb s "" then []
          else [if String.eqb (Message.role msg) "user"
                then HumanMessage s else AIMessage s]
      | None => []
      end) (Message.parts msg)) history.

(** Lines 309-313, over [reversed(result["messages"])]: the first
    [AIMessage] with truthy content, else [""]. *)
Fixpoint first_ai_content (msgs : list lc_message) : string :=
  match msgs with
  | [] => ""
  | AIMessage c :: rest => if String.eqb c "" then first_ai_content rest else c
  | _ :: rest => first_ai_content rest
  end.

Definition response_text_of (msgs : list lc_message) : string :=
  first_ai_content (rev msgs).

(* ------------------------------------------------------------------ *)
(** ** Task store operations ([handle_task_send], [handle_task_get],
       [handle_task_cancel]) *)

(** [task_id in tasks] followed by [tasks[task_id]]: the keys are strings,
    so any other hashable value is absent; lists and dicts are unhashable. *)
Definition store_lookup (task_id : json) (st : store)
  : result (option (string * Task.t)) :=
  match task_id with
  | JStr s => Ok (match st !! s with Some t => Some (s, t) | None => None end)
  | JArr _ | JObj _ => Err TypeError
  | _ => Ok None
  end.

(** [Task(id=task_id, sessionId=session_id)]: pydantic v2 accepts only a
    string id and a string or [None] session id. *)
Definition new_task (task_id session_id : json) : result Task.t :=
  match task_id with
  | JStr i =>
      let* sid := (match session_id with
                   | JStr s => Ok (Some s)
                   | JNull => Ok None
                   | _ => Err ValidationError
                   end) in
      Ok (Task.mk i sid (TaskStatus.mk SUBMITTED None) [] [] [])
  | _ => Err ValidationError
  end.

(** [Part(type="text", text=user_text)]: [text] is an [Optional[str]]. *)
Definition part_text (v : json) : result (option string) :=
  match v with
  | JStr s => Ok (Some s)
  | JNull => Ok None
  | _ => Err ValidationError
  end.

(** Lines 290-292: [task.history.append(user_message)] and
    [task.status = TaskStatus(state=TaskState.WORKING)]. *)
Definition append_user_message (t : option string) (task : Task.t) : Task.t :=
  let user_message := Message.mk "user" [Part.mk "text" t None None] in
  Task.mk (Task.id task) (Task.sessionId task)
    (TaskStatus.mk WORKING None)
    (Task.history task ++ [user_message])
    (Task.artifacts task) (Task.metadata task).

(** Lines 289-303: build the user part, update the task, and build the
    conversation from the whole history. *)
Definition add_user_message (key : string) (user_text : json) (task : Task.t)
  (st : store) : store * result (string * list lc_message) :=
  match part_text user_text with
  | Err e => (st, Err e)
  | Ok t =>
      let task' := append_user_message t task in
      (<[key := task']> st, Ok (key, build_conversation (Task.history task')))
  end.

(** [handle_task_send] up to the executor call. [uuid_task] and
    [uuid_session] are the values of [str(uuid4())] drawn by lines 245-246.
    On success it returns the store key of the task and the conversation
    passed to the executor. *)
Definition send_start (params : dict) (uuid_task uuid_session : string)
  (st : store) : store * result (string * list lc_message) :=
  let task_id := py_or (get_default "id" params JNull) (JStr uuid_task) in
  let session_id :=
    py_or (py_or (get_default "sessionId" params JNull)
                 (get_default "session_id" params JNull))
          (JStr uuid_session) in
  match extract_user_text params with
  | Err e => (st, Err e)
  | Ok user_text =>
      if negb (truthy user_text) then (st, Err ValueError_no_content)
      else
        match store_lookup task_id st with
        | Err e => (st, Err e)
        | Ok (Some (key, task)) => add_user_message key user_text task st
        | Ok None =>
            match new_task task_id session_id with
            | Err e => (st, Err e)
            | Ok task =>
                add_user_message (Task.id task) user_text task
                  (<[Task.id task := task]> st)
            end
        end
  end.

(** The [Artifact(name="response", parts=[...], index=0, lastChunk=True)]. *)
Definition response_artifact (response_text : string) : Artifact.t :=
  Artifact.mk (Some "response") None [text_part response_text] 0%Z false true.

(** Lines 316-326: the [try] body after a reply. *)
Definition complete_task (response_text : string) (task : Task.t) : Task.t :=
  let agent_message := Message.mk "agent" [text_part response_text] in
  Task.mk (Task.id task) (Task.sessionId task)
    (TaskStatus.mk COMPLETED (Some agent_message))
    (Task.history task ++ [agent_message])
    (Task.artifacts task ++ [response_artifact response_text])
    (Task.metadata task).

(** Lines 328-330: the [except] body. *)
Definition fail_task (e : string) (task : Task.t) : Task.t :=
  Task.mk (Task.id task) (Task.sessionId task)
    (TaskStatus.mk FAILED (Some (Message.mk "agent" [text_part ("Error: " ++ e)])))
    (Task.history task) (Task.artifacts task) (Task.metadata task).

Definition run_outcome (reply : exec_result) (task : Task.t) : Task.t :=
  match reply with
  | Reply msgs => complete_task (response_text_of msgs) task
  | Raised e => fail_task e task
  end.

(** [handle_task_send] after the executor call (lines 308-332). The task
    object is the one stored under [key]; the [None] case cannot happen
    since tasks are never removed. *)
Definition send_finish (key : string) (reply : exec_result) (st : store)
  : store * result Task.t :=
  match st !! key with
  | None => (st, Err KeyError)
  | Some task =>
      let task' := run_outcome reply task in
      (<[key := task']> st, Ok task')
  end.

(** [handle_task_send(params, agent_graph)], run to completion. *)
Definition handle_task_send (executor : list lc_message -> exec_result)
  (params : dict) (uuid_task uuid_session : string) (st : store)
  : store * result Task.t :=
  match send_start params uuid_task uuid_session st with
  | (st1, Err e) => (st1, Err e)
  | (st1, Ok (key, conversation)) => send_finish key (executor conversation) st1
  end.

Definition handle_task_get (params : dict) (st : store) : result Task.t :=
  let task_id := get_default "id" params JNull in
  if negb (truthy task_id) then Err ValueError_task_not_found
  else match store_lookup task_id st with
       | Err e => Err e
       | Ok None => Err ValueError_task_not_found
       | Ok (Some (_, task)) => Ok task
       end.

(** Line 352: [task.status = TaskStatus(state=TaskState.CANCELED)]. *)
Definition cancel_task (task : Task.t) : Task.t :=
  Task.mk (Task.id task) (Task.sessionId task) (TaskStatus.mk CANCELED None)
    (Task.history task) (Task.artifacts task) (Task.metadata task).

Definition handle_task_cancel (params : dict) (st : store)
  : store * result Task.t :=
  let task_id := get_default "id" params JNull in
  if negb (truthy task_id) then (st, Err ValueError_task_not_found)
  else match store_lookup task_id st with
       | Err e => (st, Err e)
       | Ok None => (st, Err ValueError_task_not_found)
       | Ok (Some (key, task)) =>
           let task' := cancel_task task in
           (<[key := task']> st, Ok task')
       end.

(* ------------------------------------------------------------------ *)
(** ** Reachable stores and their invariant *)

(** The stores the server can reach from the empty [tasks] dict, one
    request at a time. [str(uuid4())] is never the empty string. *)
Inductive reachable : store -> Prop :=
| reach_empty : reachable ∅
| reach_send executor params uuid_task uuid_session st :
    reachable st -> uuid_task <> "" ->
    reachable (fst (handle_task_send executor params uuid_task uuid_session st))
| reach_cancel params st :
    reachable st -> reachable (fst (handle_task_cancel params st)).

(** The user message of line 290 for a string text. *)
Definition user_message (s : string) : Message.t := Message.mk "user" [text_part s].

(** Every message the code puts in a history has one text part. *)
Definition single_text (m : Message.t) : Prop :=
  exists s, Message.parts m = [text_part s].

(** Each task is stored under its own id, which is not empty, and its
    history is made of single-text-part messages. *)
Definition store_wf (st : store) : Prop :=
  forall k t, st !! k = Some t ->
    Task.id t = k /\ k <> "" /\ Forall single_text (Task.history t).

(** Tasks are never removed, keep their id, and their history and
    artifacts only grow at the end. *)
Definition grows (st st' : store) : Prop :=
  forall k t, st !! k = Some t ->
    exists t', st' !! k = Some t' /\ Task.id t' = Task.id t /\
      Task.history t `prefix_of` Task.history t' /\
      Task.artifacts t `prefix_of` Task.artifacts t'.

(* ------------------------------------------------------------------ *)
(** ** Sample executors and the spec's wording of some properties *)

(** An agent that answers "100", one that raises, one whose result has
    no AI message. *)
Definition echo_exec (_ : list lc_message) : exec_result := Reply [AIMessage "100"].
Definition failing_exec (_ : list lc_message) : exec_result := Raised "rate limited".
Definition silent_exec (_ : list lc_message) : exec_result := Reply [].

(** The conversation a submission hands to the executor, [[]] when it is
    rejected before the call. *)
Definition sent_conversation (params : dict) (ut us : string) (st : store)
  : list lc_message :=
  match snd (send_start params ut us st) with
  | Ok (_, conv) => conv
  | Err _ => []
  end.

(** Spec wording: after a successful submit the task is [COMPLETED], its
    history ends with an agent message whose text is the artifact's text,
    and exactly one ["response"] artifact (index 0, last chunk, one text
    part) exists on the task. *)
Definition spec_successful_submit : Prop :=
  forall executor params ut us st st1 key conv msgs,
    send_start params ut us st = (st1, Ok (key, conv)) ->
    executor conv = Reply msgs ->
    forall st' t, handle_task_send executor params ut us st = (st', Ok t) ->
      TaskStatus.state (Task.status t) = COMPLETED /\
      exists a r,
        Task.artifacts t = [a] /\
        Artifact.name a = Some "response" /\ Artifact.index a = 0%Z /\
        Artifact.lastChunk a = true /\ Artifact.parts a = [text_part r] /\
        last (Task.history t) = Some (Message.mk "agent" [text_part r]).

(** The history of the task stored under [key], [[]] when there is none. *)
Definition prior_history (st : store) (key : string) : list Message.t :=
  match st !! key with Some t0 => Task.history t0 | None => [] end.

(** Spec wording: a submission appends one user message and a run that
    ends [COMPLETED] or [FAILED] appends one agent message. *)
Definition spec_one_agent_message_per_run : Prop :=
  forall executor params ut us st st1 key conv st' t,
    send_start params ut us st = (st1, Ok (key, conv)) ->
    handle_task_send executor params ut us st = (st', Ok t) ->
    TaskStatus.state (Task.status t) = COMPLETED \/
    TaskStatus.state (Task.status t) = FAILED ->
    exists u a,
      Task.history t = (prior_history st key ++ [u; a])%list /\
      Message.role u = "user" /\ Message.role a = "agent".

(** Spec wording of the conversation: every history message's first text
    part becomes one role-tagged turn, in history order. *)
Definition first_text_part (m : Message.t) : option Part.t :=
  find (fun p => String.eqb (Part.type p) "text") (Message.parts m).

Definition role_turn (role s : string) : lc_message :=
  if String.eqb role "user" then HumanMessage s else AIMessage s.

Definition spec_projection (h : list Message.t) : list lc_message :=
  flat_map (fun m =>
    match first_text_part m with
    | Some p => [role_turn (Message.role m)
                  (match Part.text p with Some s => s | None => "" end)]
    | None => []
    end) h.

Definition spec_full_conversation : Prop :=
  forall params ut us st st1 key conv,
    reachable st ->
    send_start params ut us st = (st1, Ok (key, conv)) ->
    exists t, st1 !! key = Some t /\ conv = spec_projection (Task.history t).

(** The text of a single-text-part message. *)
Definition message_text (m : Message.t) : string :=
  match Message.parts m with
  | p :: _ => match Part.text p with Some s => s | None => "" end
  | [] => ""
  end.

(** Spec wording of authentication, the secret being [A2A_API_KEY]: with a
    secret set, a request passes iff the header is present and equals the
    secret, possibly after a ["Bearer "] prefix; with none set, every
    request passes. *)
Definition spec_auth_configured : Prop :=
  forall k header, k <> "" ->
    (verify_api_key (API_KEY (Some k)) header = Ok true <->
     exists a, header = Some a /\ (a = k \/ a = "Bearer " ++ k)).

Definition spec_auth_unconfigured : Prop :=
  forall header, verify_api_key (API_KEY None) header = Ok true.

(* ------------------------------------------------------------------ *)
(** ** The HTTP layer ([create_a2a_app]) *)

(** A validated [JSONRPCRequest]: [params] is an optional dict and [id] an
    optional string or integer. *)
Module JSONRPCRequest.
Record t := mk {
    jsonrpc : string;
    method : string;
    params : option dict;
    id : option json }.
End JSONRPCRequest.

(** The ["message"] of a JSON-RPC error: a literal text, or [str(e)] of a
    caught exception, kept symbolic as the exception itself. *)
Inductive rpc_message :=
| MsgText (s : string)
| MsgStr (e : exn).

(** [JSONRPCResponse]; [result] is the task's [model_dump(...)], kept as the
    task itself, and [error] the [{"code": ..., "message": ...}] dict. *)
Module JSONRPCResponse.
Record t := mk {
    jsonrpc : string;
    result : option Task.t;
    error : option (Z * rpc_message);
    id : option json }.
End JSONRPCResponse.

(** The body of [handle_jsonrpc] (lines 150-172). *)
Definition handle_jsonrpc (executor : list lc_message -> exec_result)
  (rpc_request : JSONRPCRequest.t) (uuid_task uuid_session : string) (st : store)
  : store * JSONRPCResponse.t :=
  let method := JSONRPCRequest.method rpc_request in
  (* params = rpc_request.params or {} *)
  let params := match JSONRPCRequest.params rpc_request with
                | Some p => p
                | None => []
                end in
  let rid := JSONRPCRequest.id rpc_request in
  let respond (r : store * result Task.t) :=
    match r with
    | (st', Ok t) => (st', JSONRPCResponse.mk "2.0" (Some t) None rid)
    | (st', Err e) =>
        (st', JSONRPCResponse.mk "2.0" None (Some ((-32000)%Z, MsgStr e)) rid)
    end in
  if String.eqb method "tasks/send" then
    respond (handle_task_send executor params uuid_task uuid_session st)
  else if String.eqb method "tasks/get" then
    respond (st, handle_task_get params st)
  else if String.eqb method "tasks/cancel" then
    respond (handle_task_cancel params st)
  else
    (st, JSONRPCResponse.mk "2.0" None
           (Some ((-32601)%Z, MsgText ("Method not found: " ++ method))) rid).

(** What [POST /tasks/send] answers with status 400: [request.json()] on a
    body that is not JSON, or an exception of its [try] block. *)
Inductive rest_error :=
| JSONDecodeError
| RestExn (e : exn).

(** The responses of the endpoints. *)
Inductive http_response :=
| TaskDump (t : Task.t)                          (** 200, [task.model_dump(...)] *)
| BadRequest (e : rest_error)                    (** [JSONResponse(status_code=400, ...)] *)
| InternalServerError (e : exn).                 (** an uncaught exception: 500 *)

(** [POST /tasks/send] (lines 181-192): [body] is [await request.json()],
    [None] when the request body is not JSON. Only a JSON object has the
    [.get] that [handle_task_send] calls first. *)
Definition task_send (executor : list lc_message -> exec_result)
  (body : option json) (uuid_task uuid_session : string) (st : store)
  : store * http_response :=
  match body with
  | None => (st, BadRequest JSONDecodeError)
  | Some (JObj params) =>
      match handle_task_send executor params uuid_task uuid_session st with
      | (st', Ok t) => (st', TaskDump t)
      | (st', Err e) => (st', BadRequest (RestExn e))
      end
  | Some _ => (st, BadRequest (RestExn AttributeError))
  end.

(** [GET /tasks/{task_id}]: the [ValueError] is not caught. *)
Definition task_get (task_id : string) (st : store) : store * http_response :=
  match handle_task_get [("id", JStr task_id)] st with
  | Ok t => (st, TaskDump t)
  | Err e => (st, InternalServerError e)
  end.

(** [POST /tasks/{task_id}/cancel]: the [ValueError] is not caught. *)
Definition task_cancel (task_id : string) (st : store) : store * http_response :=
  match handle_task_cancel [("id", JStr task_id)] st with
  | (st', Ok t) => (st', TaskDump t)
  | (st', Err e) => (st', InternalServerError e)
  end.

(** [old in s] on strings. *)
Fixpoint str_contains (old s : string) : bool :=
  String.prefix old s ||
  match s with
  | EmptyString => false
  | String _ s' => str_contains old s'
  end.

(** Reply messages that are not an [AIMessage] with non-empty content. *)
Definition no_ai_text (m : lc_message) : Prop := forall c, m = AIMessage c -> c = "".

(* ------------------------------------------------------------------ *)
(** ** Lemmas on the building blocks *)

(** Facts on [lstrip], [rstrip] and [py_strip]. *)
Lemma lstrip_idem s : lstrip (lstrip s) = lstrip s.
Proof.
  induction s as [|c s IH]; simpl; [reflexivity|].
  destruct (is_py_space c) eqn:E; [exact IH|]. simpl. rewrite E. reflexivity.
Qed.

Lemma lstrip_length s : String.length (lstrip s) <= String.length s.
Proof.
  induction s as [|c s IH]; simpl; [lia|].
  destruct (is_py_space c); simpl; lia.
Qed.

Lemma lstrip_fixed s :
  lstrip s = s -> s = "" \/ exists c s', s = String c s' /\ is_py_space c = false.
Proof.
  destruct s as [|c s]; [left; reflexivity|]. simpl.
  destruct (is_py_space c) eqn:E; intros H.
  - pose proof (lstrip_length s) as L. rewrite H in L. simpl in L. lia.
  - right. eauto.
Qed.

Lemma string_of_list_ascii_app l1 l2 :
  string_of_list_ascii (l1 ++ l2) = (string_of_list_ascii l1 ++ string_of_list_ascii l2)%string.
Proof. induction l1 as [|c l IH]; simpl; [reflexivity|]. rewrite IH. reflexivity. Qed.

Lemma list_ascii_of_string_app s1 s2 :
  list_ascii_of_string (s1 ++ s2) = (list_ascii_of_string s1 ++ list_ascii_of_string s2)%list.
Proof. induction s1 as [|c s IH]; simpl; [reflexivity|]. rewrite IH. reflexivity. Qed.

Lemma string_reverse_involutive s : string_reverse (string_reverse s) = s.
Proof.
  unfold string_reverse. rewrite list_ascii_of_string_of_list_ascii, rev_involutive.
  apply string_of_list_ascii_of_string.
Qed.

Lemma string_reverse_snoc s c :
  string_reverse (s ++ String c "") = String c (string_reverse s).
Proof.
  unfold string_reverse. rewrite list_ascii_of_string_app. simpl.
  rewrite rev_app_distr. reflexivity.
Qed.

Lemma string_reverse_cons c s :
  string_reverse (String c s) = (string_reverse s ++ String c "")%string.
Proof.
  unfold string_reverse. simpl. rewrite string_of_list_ascii_app. reflexivity.
Qed.

Lemma lstrip_snoc_nonspace s c :
  is_py_space c = false -> lstrip (s ++ String c "") = (lstrip s ++ String c "")%string.
Proof.
  intros Hc. induction s as [|a s IH]; simpl; [rewrite Hc; reflexivity|].
  destruct (is_py_space a); [exact IH|reflexivity].
Qed.

Lemma rstrip_cons_nonspace c s :
  is_py_space c = false -> rstrip (String c s) = String c (rstrip s).
Proof.
  intros Hc. unfold rstrip. rewrite string_reverse_cons, lstrip_snoc_nonspace by exact Hc.
  apply string_reverse_snoc.
Qed.

Lemma lstrip_rstrip s : lstrip s = s -> lstrip (rstrip s) = rstrip s.
Proof.
  intros H. destruct (lstrip_fixed s H) as [-> | [c [s' [-> Hc]]]]; [reflexivity|].
  rewrite rstrip_cons_nonspace by exact Hc. simpl. rewrite Hc. reflexivity.
Qed.

Lemma rstrip_idem s : rstrip (rstrip s) = rstrip s.
Proof.
  unfold rstrip. rewrite string_reverse_involutive, lstrip_idem. reflexivity.
Qed.

Lemma py_strip_idem s : py_strip (py_strip s) = py_strip s.
Proof.
  unfold py_strip. rewrite lstrip_rstrip by apply lstrip_idem.
  apply rstrip_idem.
Qed.

Lemma replace_go_absent f old new s :
  str_contains old s = false -> replace_go f old new s = s.
Proof.
  revert f. induction s as [|c s IH]; intros f H; destruct f; simpl; try reflexivity.
  simpl in H. apply orb_false_iff in H as [Hp Hs].
  rewrite Hp, (IH f Hs). reflexivity.
Qed.

Lemma substring_0_full s m : String.length s <= m -> substring 0 m s = s.
Proof.
  revert m. induction s as [|c s IH]; intros m H; destruct m; simpl in *;
    try reflexivity; try lia.
  rewrite IH by lia. reflexivity.
Qed.

Lemma replace_go_S f old new c s :
  replace_go (S f) old new (String c s) =
  if String.prefix old (String c s)
  then (new ++ replace_go f old new
          (substring (String.length old) (String.length (String c s)) (String c s)))%string
  else String c (replace_go f old new s).
Proof. reflexivity. Qed.

Lemma py_replace_bearer s :
  str_contains "Bearer " s = false -> py_replace "Bearer " "" ("Bearer " ++ s) = s.
Proof.
  intros Hc. unfold py_replace.
  change (String.length ("Bearer " ++ s)) with (S (6 + String.length s)).
  change ("Bearer " ++ s)%string with (String "B" ("earer " ++ s)).
  rewrite replace_go_S.
  replace (String.prefix "Bearer " (String "B" ("earer " ++ s))) with true
    by (simpl; destruct s; reflexivity).
  change (substring (String.length "Bearer ") (String.length (String "B" ("earer " ++ s)))
            (String "B" ("earer " ++ s))) with (substring 0 (7 + String.length s) s).
  rewrite substring_0_full by lia.
  exact (replace_go_absent _ _ _ _ Hc).
Qed.

Lemma store_lookup_Some v st k t :
  store_lookup v st = Ok (Some (k, t)) -> v = JStr k /\ st !! k = Some t.
Proof.
  destruct v; simpl; try discriminate.
  destruct (st !! s) eqn:E; intros H; inversion H; subst; auto.
Qed.

Lemma store_lookup_None v st k :
  v = JStr k -> store_lookup v st = Ok None -> st !! k = None.
Proof.
  intros -> H; simpl in H. destruct (st !! k); [discriminate | reflexivity].
Qed.

Lemma new_task_Ok v sv t :
  new_task v sv = Ok t ->
  v = JStr (Task.id t) /\ Task.status t = TaskStatus.mk SUBMITTED None /\
  Task.history t = [] /\ Task.artifacts t = [] /\ Task.metadata t = [].
Proof.
  destruct v; simpl; try discriminate.
  destruct sv; simpl; try discriminate; intros H; inversion H; subst; simpl; auto.
Qed.

Lemma part_text_truthy u o :
  truthy u = true -> part_text u = Ok o ->
  exists s, u = JStr s /\ s <> "" /\ o = Some s.
Proof.
  destruct u; simpl; try discriminate.
  intros T H; inversion H; subst. exists s; repeat split.
  intros ->. discriminate.
Qed.

Lemma py_or_str_nonempty a u k :
  py_or a (JStr u) = JStr k -> u <> "" -> k <> "".
Proof.
  unfold py_or. destruct (truthy a) eqn:T; intros H Hu.
  - subst a. simpl in T. intros ->. discriminate.
  - inversion H; subst; assumption.
Qed.

(** What a successful [send_start] did: the payload gave a non-empty
    string; the key is the resolved task id; the task is the stored one or
    a fresh [SUBMITTED] one; the user message was appended. *)
Lemma send_start_Ok params ut us st st1 key conv :
  send_start params ut us st = (st1, Ok (key, conv)) ->
  exists s task0,
    extract_user_text params = Ok (JStr s) /\ s <> "" /\
    py_or (get_default "id" params JNull) (JStr ut) = JStr key /\
    (st !! key = Some task0 \/
     (st !! key = None /\ Task.id task0 = key /\
      Task.status task0 = TaskStatus.mk SUBMITTED None /\
      Task.history task0 = [] /\ Task.artifacts task0 = [])) /\
    st1 = <[key := append_user_message (Some s) task0]> st /\
    conv = build_conversation (Task.history task0 ++ [user_message s]).
Proof.
  unfold send_start.
  destruct (extract_user_text params) as [u|e] eqn:E; [|discriminate].
  destruct (truthy u) eqn:T; simpl; [|discriminate].
  set (tid := py_or (get_default "id" params JNull) (JStr ut)).
  destruct (store_lookup tid st) as [[[k t]|]|e] eqn:L; [| |discriminate].
  - apply store_lookup_Some in L as [Htid Hk].
    unfold add_user_message.
    destruct (part_text u) as [o|e] eqn:P; [|discriminate].
    destruct (part_text_truthy u o T P) as [s [-> [Hs ->]]].
    intros H; inversion H; subst.
    exists s, t. do 3 (split; [auto|]). split; [left; exact Hk|].
    split; reflexivity.
  - destruct (new_task tid _) as [t|e] eqn:N; [|discriminate].
    destruct (new_task_Ok _ _ _ N) as [Htid [Hst [Hh [Ha _]]]].
    pose proof (store_lookup_None _ _ _ Htid L) as Hnone.
    unfold add_user_message.
    destruct (part_text u) as [o|e] eqn:P; [|discriminate].
    destruct (part_text_truthy u o T P) as [s [-> [Hs ->]]].
    intros H; inversion H; subst.
    exists s, t. do 3 (split; [auto|]). split; [right; auto|].
    split; [|reflexivity]. rewrite insert_insert_eq. reflexivity.
Qed.

Lemma part_text_Err u e : part_text u = Err e -> e = ValidationError.
Proof. destruct u; simpl; intros H; inversion H; reflexivity. Qed.

(** A failed [send_start] left the store as it was, except when pydantic
    rejected the user text after a new task had been inserted. *)
Lemma send_start_Err params ut us st st1 e :
  send_start params ut us st = (st1, Err e) ->
  st1 = st \/
  (e = ValidationError /\
   exists k t, st !! k = None /\ st1 = <[k := t]> st /\
     py_or (get_default "id" params JNull) (JStr ut) = JStr k /\
     Task.id t = k /\ Task.history t = [] /\ Task.artifacts t = []).
Proof.
  unfold send_start.
  destruct (extract_user_text params) as [u|e'] eqn:E;
    [|intros H; inversion H; auto].
  destruct (truthy u) eqn:T; simpl; [|intros H; inversion H; auto].
  set (tid := py_or (get_default "id" params JNull) (JStr ut)).
  destruct (store_lookup tid st) as [[[k t]|]|e'] eqn:L;
    [| |intros H; inversion H; auto].
  - unfold add_user_message.
    destruct (part_text u) as [o|e'] eqn:P; [discriminate|].
    intros H; inversion H; auto.
  - destruct (new_task tid _) as [t|e'] eqn:N; [|intros H; inversion H; auto].
    destruct (new_task_Ok _ _ _ N) as [Htid [_ [Hh [Ha _]]]].
    pose proof (store_lookup_None _ _ _ Htid L) as Hnone.
    unfold add_user_message.
    destruct (part_text u) as [o|e'] eqn:P; [discriminate|].
    intros H; inversion H; subst. right. split; [eapply part_text_Err; eauto|].
    exists (Task.id t), t. auto 6.
Qed.

Lemma send_finish_inserted key r st t :
  send_finish key r (<[key := t]> st) =
  (<[key := run_outcome r t]> st, Ok (run_outcome r t)).
Proof.
  unfold send_finish. rewrite lookup_insert_eq. rewrite insert_insert_eq.
  reflexivity.
Qed.

(** A submission whose [send_start] succeeded runs to completion: the task
    stored under [key] is the task after the user message, updated by the
    executor's outcome, and [handle_task_send] returns it. *)
Lemma handle_task_send_started executor params ut us st st1 key conv :
  send_start params ut us st = (st1, Ok (key, conv)) ->
  exists s task0,
    extract_user_text params = Ok (JStr s) /\ s <> "" /\
    py_or (get_default "id" params JNull) (JStr ut) = JStr key /\
    (st !! key = Some task0 \/
     (st !! key = None /\ Task.id task0 = key /\
      Task.status task0 = TaskStatus.mk SUBMITTED None /\
      Task.history task0 = [] /\ Task.artifacts task0 = [])) /\
    st1 = <[key := append_user_message (Some s) task0]> st /\
    conv = build_conversation (Task.history task0 ++ [user_message s]) /\
    handle_task_send executor params ut us st =
      (<[key := run_outcome (executor conv)
                  (append_user_message (Some s) task0)]> st,
       Ok (run_outcome (executor conv) (append_user_message (Some s) task0))).
Proof.
  intros S. destruct (send_start_Ok _ _ _ _ _ _ _ S)
    as [s [task0 [E [Hs [Hid [Hcase [Hst1 Hconv]]]]]]].
  exists s, task0. do 6 (split; [assumption|]).
  unfold handle_task_send. rewrite S, Hst1. apply send_finish_inserted.
Qed.

Lemma handle_task_send_Err executor params ut us st st' e :
  handle_task_send executor params ut us st = (st', Err e) ->
  send_start params ut us st = (st', Err e).
Proof.
  unfold handle_task_send.
  destruct (send_start params ut us st) as [st1 [[key conv]|e']] eqn:S;
    [|intros H; inversion H; reflexivity].
  destruct (send_start_Ok _ _ _ _ _ _ _ S) as [s [task0 [_ [_ [_ [_ [-> _]]]]]]].
  rewrite send_finish_inserted. intros H; inversion H.
Qed.

(** Identity, status and list fields of the mutation helpers. *)
Lemma append_user_message_fields o task :
  Task.id (append_user_message o task) = Task.id task /\
  Task.history (append_user_message o task) =
    (Task.history task ++ [Message.mk "user" [Part.mk "text" o None None]])%list /\
  Task.artifacts (append_user_message o task) = Task.artifacts task.
Proof. repeat split. Qed.

Lemma run_outcome_id r task : Task.id (run_outcome r task) = Task.id task.
Proof. destruct r; reflexivity. Qed.

Lemma run_outcome_grows r task :
  Task.history task `prefix_of` Task.history (run_outcome r task) /\
  Task.artifacts task `prefix_of` Task.artifacts (run_outcome r task).
Proof.
  destruct r; simpl; split;
    solve [apply prefix_app_r; reflexivity | reflexivity].
Qed.

Lemma run_outcome_single_text r task :
  Forall single_text (Task.history task) ->
  Forall single_text (Task.history (run_outcome r task)).
Proof.
  intros H. destruct r; simpl; [|exact H].
  apply Forall_app; split; [exact H|].
  constructor; [|constructor]. eexists; reflexivity.
Qed.

Lemma store_wf_insert st k t :
  store_wf st -> Task.id t = k -> k <> "" ->
  Forall single_text (Task.history t) -> store_wf (<[k := t]> st).
Proof.
  intros Hwf Hid Hk Hh k' t'. rewrite lookup_insert.
  case_decide as E.
  - intros H; inversion H; subst. auto.
  - apply Hwf.
Qed.

Lemma grows_refl st : grows st st.
Proof. intros k t H. exists t. repeat split; auto; reflexivity. Qed.

Lemma grows_insert st k t' :
  (forall t, st !! k = Some t ->
     Task.id t' = Task.id t /\
     Task.history t `prefix_of` Task.history t' /\
     Task.artifacts t `prefix_of` Task.artifacts t') ->
  grows st (<[k := t']> st).
Proof.
  intros Hk k0 t H. rewrite lookup_insert. case_decide as E.
  - subst k0. exists t'. split; [reflexivity|]. apply Hk; exact H.
  - exists t. repeat split; auto; reflexivity.
Qed.

(** Ltac for the case split every [handle_task_send] proof starts with. *)
Ltac case_send executor params ut us st :=
  let S := fresh "S" in
  destruct (send_start params ut us st) as [?st1 [[?key ?conv]|?e]] eqn:S;
  [ destruct (handle_task_send_started executor _ _ _ _ _ _ _ S)
      as [?s [?task0 [?E [?Hs [?Hid [?Hcase [?Hst1 [?Hconv ?Hrun]]]]]]]]
  | assert (handle_task_send executor params ut us st = (st1, Err e))
      by (unfold handle_task_send; rewrite S; reflexivity);
    destruct (send_start_Err _ _ _ _ _ _ S)
      as [?Hsame | [?Hval [?k [?t [?Hnone [?Hst1 [?Hid [?Htid [?Hh ?Ha]]]]]]]]] ].

Lemma handle_task_send_wf executor params ut us st :
  store_wf st -> ut <> "" ->
  store_wf (fst (handle_task_send executor params ut us st)).
Proof.
  intros Hwf Hut.
  case_send executor params ut us st.
  - rewrite Hrun. simpl.
    pose proof (py_or_str_nonempty _ _ _ Hid Hut) as Hk.
    assert (Task.id task0 = key /\ Forall single_text (Task.history task0))
      as [Hid0 Hh0].
    { destruct Hcase as [Hsome | [_ [Hi [_ [Hh _]]]]].
      - destruct (Hwf _ _ Hsome) as [? [_ ?]]. auto.
      - rewrite Hh. auto. }
    apply store_wf_insert; auto.
    + rewrite run_outcome_id. exact Hid0.
    + apply run_outcome_single_text. simpl.
      apply Forall_app; split; [exact Hh0|].
      constructor; [|constructor]. eexists; reflexivity.
  - rewrite H. simpl. subst. exact Hwf.
  - rewrite H. simpl. subst st1.
    apply store_wf_insert; auto.
    + eapply py_or_str_nonempty; eauto.
    + rewrite Hh. constructor.
Qed.

Lemma handle_task_cancel_wf params st :
  store_wf st -> store_wf (fst (handle_task_cancel params st)).
Proof.
  intros Hwf. unfold handle_task_cancel.
  destruct (negb (truthy _)); [exact Hwf|].
  destruct (store_lookup _ st) as [[[k t]|]|e] eqn:L; simpl; try exact Hwf.
  apply store_lookup_Some in L as [_ Hk].
  destruct (Hwf _ _ Hk) as [Hid [Hne Hh]].
  apply store_wf_insert; auto.
Qed.

Lemma reachable_wf st : reachable st -> store_wf st.
Proof.
  induction 1.
  - intros k t H. rewrite lookup_empty in H. discriminate.
  - apply handle_task_send_wf; assumption.
  - apply handle_task_cancel_wf; assumption.
Qed.

Lemma handle_task_send_grows executor params ut us st :
  grows st (fst (handle_task_send executor params ut us st)).
Proof.
  case_send executor params ut us st.
  - rewrite Hrun. simpl. apply grows_insert.
    intros t Ht.
    assert (task0 = t) as <-.
    { destruct Hcase as [Hsome | [Hn _]]; congruence. }
    rewrite run_outcome_id.
    destruct (run_outcome_grows (executor conv) (append_user_message (Some s) task0))
      as [G1 G2].
    split; [reflexivity|]. split.
    + etransitivity; [|exact G1]. simpl. apply prefix_app_r. reflexivity.
    + exact G2.
  - rewrite H. simpl. subst. apply grows_refl.
  - rewrite H. simpl. subst st1. apply grows_insert.
    intros t' Ht'. congruence.
Qed.

Lemma handle_task_cancel_grows params st :
  grows st (fst (handle_task_cancel params st)).
Proof.
  unfold handle_task_cancel.
  destruct (negb (truthy _)); [apply grows_refl|].
  destruct (store_lookup _ st) as [[[k t]|]|e] eqn:L; simpl; try apply grows_refl.
  apply store_lookup_Some in L as [_ Hk]. apply grows_insert.
  intros t' Ht'. rewrite Hk in Ht'. inversion Ht'; subst.
  repeat split; reflexivity.
Qed.

(* ------------------------------------------------------------------ *)
(** ** Claims *)

(** A successful run on a fresh task, used by several checks below. *)
Lemma first_run_store :
  fst (handle_task_send echo_exec
         [("id", JStr "t1"); ("text", JStr "Calculate 25 * 4")] "u1" "s1" ∅)
  = {[ "t1" := Task.mk "t1" (Some "s1")
         (TaskStatus.mk COMPLETED (Some (Message.mk "agent" [text_part "100"])))
         [user_message "Calculate 25 * 4"; Message.mk "agent" [text_part "100"]]
         [response_artifact "100"] [] ]}.
Proof. vm_compute. reflexivity. Qed.

(** C1 (counterexample): a second successful submit to the same task
    leaves two ["response"] artifacts on it, not exactly one. *)
Lemma C1_second_run_two_artifacts : ~ spec_successful_submit.
Proof.
  intros H.
  set (st := fst (handle_task_send echo_exec
         [("id", JStr "t1"); ("text", JStr "Calculate 25 * 4")] "u1" "s1" ∅)).
  set (p2 := [("id", JStr "t1"); ("text", JStr "and again")]).
  specialize (H echo_exec p2 "u2" "s2" st _ "t1" _ _ eq_refl eq_refl _ _ eq_refl).
  destruct H as [_ [a [r [Ha _]]]].
  vm_compute in Ha. discriminate Ha.
Qed.

(** C1 (amended): when [send_start] got to the executor call and the
    executor replied, the task is [COMPLETED] with the agent message,
    the history ends with that agent message whose only part is the
    reply text, and exactly one ["response"] artifact (index 0, last
    chunk, one text part holding the same text) is appended to the
    task's artifacts; on a task created by this submit it is the only one. *)
Theorem C1_completed_run executor params ut us st st1 key conv msgs :
  send_start params ut us st = (st1, Ok (key, conv)) ->
  executor conv = Reply msgs ->
  let r := response_text_of msgs in
  let art := Artifact.mk (Some "response") None [text_part r] 0%Z false true in
  let before := match st !! key with Some t0 => Task.artifacts t0 | None => [] end in
  exists t,
    handle_task_send executor params ut us st = (<[key := t]> st, Ok t) /\
    TaskStatus.state (Task.status t) = COMPLETED /\
    TaskStatus.message (Task.status t) = Some (Message.mk "agent" [text_part r]) /\
    last (Task.history t) = Some (Message.mk "agent" [text_part r]) /\
    Task.artifacts t = (before ++ [art])%list /\
    (st !! key = None -> Task.artifacts t = [art]).
Proof.
  intros S Hex r art before.
  destruct (handle_task_send_started executor _ _ _ _ _ _ _ S)
    as [s [task0 [_ [_ [_ [Hcase [_ [_ Hrun]]]]]]]].
  rewrite Hex in Hrun. simpl in Hrun.
  eexists. split; [exact Hrun|].
  simpl. split; [reflexivity|]. split; [reflexivity|].
  split; [apply last_snoc|].
  unfold before.
  destruct Hcase as [Hsome | [Hnone [_ [_ [_ Ha]]]]].
  - rewrite Hsome. split; [reflexivity|]. congruence.
  - rewrite Hnone, Ha. split; reflexivity.
Qed.

Lemma C1_completed_run_witness :
  send_start [("text", JStr "Calculate 25 * 4")] "u1" "s1" ∅ =
    (fst (send_start [("text", JStr "Calculate 25 * 4")] "u1" "s1" ∅),
     Ok ("u1", [HumanMessage "Calculate 25 * 4"])) /\
  echo_exec [HumanMessage "Calculate 25 * 4"] = Reply [AIMessage "100"] /\
  exists t,
    handle_task_send echo_exec [("text", JStr "Calculate 25 * 4")] "u1" "s1" ∅ =
      (<[ "u1" := t ]> ∅, Ok t) /\
    TaskStatus.state (Task.status t) = COMPLETED /\
    TaskStatus.message (Task.status t) = Some (Message.mk "agent" [text_part "100"]) /\
    last (Task.history t) = Some (Message.mk "agent" [text_part "100"]) /\
    Task.artifacts t = ([] ++ [response_artifact "100"])%list /\
    ((∅ : store) !! "u1" = None -> Task.artifacts t = [response_artifact "100"]).
Proof.
  assert (S : send_start [("text", JStr "Calculate 25 * 4")] "u1" "s1" ∅ =
    (fst (send_start [("text", JStr "Calculate 25 * 4")] "u1" "s1" ∅),
     Ok ("u1", [HumanMessage "Calculate 25 * 4"]))) by (vm_compute; reflexivity).
  split; [exact S|]. split; [reflexivity|].
  exact (C1_completed_run echo_exec _ _ _ ∅ _ _ _ [AIMessage "100"] S eq_refl).
Defined.

(** C3: when the executor call raises, [handle_task_send] still returns
    the task normally; the task is [FAILED] and its status carries an agent
    message whose text is ["Error: "] followed by the exception's text. *)
Theorem C3_executor_failure_captured executor params ut us st st1 key conv d :
  send_start params ut us st = (st1, Ok (key, conv)) ->
  executor conv = Raised d ->
  exists t,
    handle_task_send executor params ut us st = (<[key := t]> st, Ok t) /\
    TaskStatus.state (Task.status t) = FAILED /\
    TaskStatus.message (Task.status t) =
      Some (Message.mk "agent" [text_part ("Error: " ++ d)]).
Proof.
  intros S Hex.
  destruct (handle_task_send_started executor _ _ _ _ _ _ _ S)
    as [s [task0 [_ [_ [_ [_ [_ [_ Hrun]]]]]]]].
  rewrite Hex in Hrun. simpl in Hrun.
  eexists. split; [exact Hrun|]. split; reflexivity.
Qed.

Lemma C3_executor_failure_captured_witness :
  send_start [("text", JStr "weather?")] "u1" "s1" ∅ =
    (fst (send_start [("text", JStr "weather?")] "u1" "s1" ∅),
     Ok ("u1", [HumanMessage "weather?"])) /\
  failing_exec [HumanMessage "weather?"] = Raised "rate limited" /\
  exists t,
    handle_task_send failing_exec [("text", JStr "weather?")] "u1" "s1" ∅ =
      (<[ "u1" := t ]> ∅, Ok t) /\
    TaskStatus.state (Task.status t) = FAILED /\
    TaskStatus.message (Task.status t) =
      Some (Message.mk "agent" [text_part ("Error: " ++ "rate limited")]).
Proof.
  assert (S : send_start [("text", JStr "weather?")] "u1" "s1" ∅ =
    (fst (send_start [("text", JStr "weather?")] "u1" "s1" ∅),
     Ok ("u1", [HumanMessage "weather?"]))) by (vm_compute; reflexivity).
  split; [exact S|]. split; [reflexivity|].
  exact (C3_executor_failure_captured failing_exec _ _ _ ∅ _ _ _ _ S eq_refl).
Defined.

(** C7: a submission rejected with the no-content [ValueError] leaves the
    task store exactly as it was: the id drawn from [uuid4()] or given by
    the caller is not inserted and no task is touched. *)
Theorem C7_no_content_store_unchanged executor params ut us st st' :
  handle_task_send executor params ut us st = (st', Err ValueError_no_content) ->
  st' = st.
Proof.
  intros H. apply handle_task_send_Err in H.
  destruct (send_start_Err _ _ _ _ _ _ H) as [-> | [Hv _]]; [reflexivity|].
  discriminate Hv.
Qed.

Lemma C7_no_content_store_unchanged_witness :
  let st := fst (handle_task_send echo_exec
                   [("id", JStr "t1"); ("text", JStr "Calculate 25 * 4")] "u1" "s1" ∅) in
  handle_task_send echo_exec
    [("id", JStr "t1"); ("message", JObj [("parts", JArr [JObj [("type", JStr "text")]])])]
    "u2" "s2" st = (st, Err ValueError_no_content) /\ st = st.
Proof.
  intros st.
  assert (H : handle_task_send echo_exec
    [("id", JStr "t1"); ("message", JObj [("parts", JArr [JObj [("type", JStr "text")]])])]
    "u2" "s2" st = (st, Err ValueError_no_content)) by (vm_compute; reflexivity).
  split; [exact H|].
  exact (C7_no_content_store_unchanged _ _ _ _ _ _ H).
Defined.

Lemma first_ai_content_empty (l : list lc_message) :
  (forall c, In (AIMessage c) l -> c = "") -> first_ai_content l = "".
Proof.
  induction l as [|m l IH]; intros H; [reflexivity|].
  destruct m as [c|c|c]; simpl; try (apply IH; intros c' Hc'; apply H; right; exact Hc').
  rewrite (H c (or_introl eq_refl)). simpl.
  apply IH. intros c' Hc'. apply H. right. exact Hc'.
Qed.

(** C10: a reply with no AI message of non-empty content still completes
    the task: the agent message appended to the history and the
    ["response"] artifact both hold the empty text. *)
Theorem C10_empty_reply_completes executor params ut us st st1 key conv msgs :
  send_start params ut us st = (st1, Ok (key, conv)) ->
  executor conv = Reply msgs ->
  (forall c, In (AIMessage c) msgs -> c = "") ->
  exists t,
    handle_task_send executor params ut us st = (<[key := t]> st, Ok t) /\
    TaskStatus.state (Task.status t) = COMPLETED /\
    last (Task.history t) = Some (Message.mk "agent" [text_part ""]) /\
    last (Task.artifacts t) =
      Some (Artifact.mk (Some "response") None [text_part ""] 0%Z false true).
Proof.
  intros S Hex Hnone.
  destruct (handle_task_send_started executor _ _ _ _ _ _ _ S)
    as [s [task0 [_ [_ [_ [_ [_ [_ Hrun]]]]]]]].
  rewrite Hex in Hrun. simpl in Hrun.
  assert (Hr : response_text_of msgs = "").
  { unfold response_text_of. apply first_ai_content_empty.
    intros c Hc. apply Hnone. apply in_rev. exact Hc. }
  rewrite Hr in Hrun.
  eexists. split; [exact Hrun|]. simpl.
  split; [reflexivity|]. split; apply last_snoc.
Qed.

Lemma C10_empty_reply_completes_witness :
  send_start [("input", JStr "hello")] "u1" "s1" ∅ =
    (fst (send_start [("input", JStr "hello")] "u1" "s1" ∅),
     Ok ("u1", [HumanMessage "hello"])) /\
  silent_exec [HumanMessage "hello"] = Reply [] /\
  exists t,
    handle_task_send silent_exec [("input", JStr "hello")] "u1" "s1" ∅ =
      (<[ "u1" := t ]> ∅, Ok t) /\
    TaskStatus.state (Task.status t) = COMPLETED /\
    last (Task.history t) = Some (Message.mk "agent" [text_part ""]) /\
    last (Task.artifacts t) =
      Some (Artifact.mk (Some "response") None [text_part ""] 0%Z false true).
Proof.
  assert (S : send_start [("input", JStr "hello")] "u1" "s1" ∅ =
    (fst (send_start [("input", JStr "hello")] "u1" "s1" ∅),
     Ok ("u1", [HumanMessage "hello"]))) by (vm_compute; reflexivity).
  split; [exact S|]. split; [reflexivity|].
  refine (C10_empty_reply_completes silent_exec _ _ _ ∅ _ _ _ [] S eq_refl _).
  intros c Hc. destruct Hc.
Defined.

(** C4 (counterexample): a run that ends [FAILED] appends the user message
    and no agent message to the history. *)
Lemma C4_failed_run_no_agent_message : ~ spec_one_agent_message_per_run.
Proof.
  intros H.
  specialize (H failing_exec [("text", JStr "weather?")] "u1" "s1" ∅ _ "u1" _ _ _
                eq_refl eq_refl (or_intror eq_refl)).
  destruct H as [u [a [Hh _]]].
  vm_compute in Hh. inversion Hh.
Qed.

(** C4 (amended): a submission that passes normalisation appends exactly
    one user message, holding the extracted text, to the task's history; a
    run that ends [COMPLETED] then appends exactly one agent message and a
    run that ends [FAILED] appends none (its error message is only in the
    status). Submissions and cancellations never remove a task and only
    extend its history and artifacts at the end. *)
Theorem C4_history_append_only :
  (forall executor params ut us st st1 key conv,
     send_start params ut us st = (st1, Ok (key, conv)) ->
     exists s,
       extract_user_text params = Ok (JStr s) /\ s <> "" /\
       (forall msgs, executor conv = Reply msgs ->
          exists t,
            handle_task_send executor params ut us st = (<[key := t]> st, Ok t) /\
            TaskStatus.state (Task.status t) = COMPLETED /\
            Task.history t =
              (prior_history st key ++
               [user_message s;
                Message.mk "agent" [text_part (response_text_of msgs)]])%list) /\
       (forall d, executor conv = Raised d ->
          exists t,
            handle_task_send executor params ut us st = (<[key := t]> st, Ok t) /\
            TaskStatus.state (Task.status t) = FAILED /\
            Task.history t = (prior_history st key ++ [user_message s])%list)) /\
  (forall executor params ut us st,
     grows st (fst (handle_task_send executor params ut us st))) /\
  (forall params st, grows st (fst (handle_task_cancel params st))).
Proof.
  split; [|split; [exact handle_task_send_grows | exact handle_task_cancel_grows]].
  intros executor params ut us st st1 key conv S.
  destruct (handle_task_send_started executor _ _ _ _ _ _ _ S)
    as [s [task0 [E [Hs [_ [Hcase [_ [_ Hrun]]]]]]]].
  assert (Hprior : prior_history st key = Task.history task0).
  { unfold prior_history.
    destruct Hcase as [-> | [-> [_ [_ [Hh _]]]]]; [reflexivity | symmetry; exact Hh]. }
  exists s. split; [exact E|]. split; [exact Hs|]. split.
  - intros msgs Hex. rewrite Hex in Hrun.
    eexists. split; [exact Hrun|]. split; [reflexivity|].
    rewrite Hprior. simpl. rewrite <- app_assoc. reflexivity.
  - intros d Hex. rewrite Hex in Hrun.
    eexists. split; [exact Hrun|]. split; [reflexivity|].
    rewrite Hprior. reflexivity.
Qed.

Lemma C4_history_append_only_witness :
  send_start [("text", JStr "weather?")] "u1" "s1" ∅ =
    (fst (send_start [("text", JStr "weather?")] "u1" "s1" ∅),
     Ok ("u1", [HumanMessage "weather?"])) /\
  exists s,
    extract_user_text [("text", JStr "weather?")] = Ok (JStr s) /\ s <> "" /\
    (forall msgs, failing_exec [HumanMessage "weather?"] = Reply msgs ->
       exists t,
         handle_task_send failing_exec [("text", JStr "weather?")] "u1" "s1" ∅ =
           (<[ "u1" := t ]> ∅, Ok t) /\
         TaskStatus.state (Task.status t) = COMPLETED /\
         Task.history t =
           (prior_history ∅ "u1" ++
            [user_message s;
             Message.mk "agent" [text_part (response_text_of msgs)]])%list) /\
    (forall d, failing_exec [HumanMessage "weather?"] = Raised d ->
       exists t,
         handle_task_send failing_exec [("text", JStr "weather?")] "u1" "s1" ∅ =
           (<[ "u1" := t ]> ∅, Ok t) /\
         TaskStatus.state (Task.status t) = FAILED /\
         Task.history t = (prior_history ∅ "u1" ++ [user_message s])%list).
Proof.
  assert (S : send_start [("text", JStr "weather?")] "u1" "s1" ∅ =
    (fst (send_start [("text", JStr "weather?")] "u1" "s1" ∅),
     Ok ("u1", [HumanMessage "weather?"]))) by (vm_compute; reflexivity).
  split; [exact S|].
  exact (proj1 C4_history_append_only failing_exec _ _ _ ∅ _ _ _ S).
Defined.

(** C5: [handle_task_get] and [handle_task_cancel] on an id that is not in
    the store raise the "Task not found" [ValueError] and leave the store
    alone; [handle_task_cancel] on any stored (non-empty) id sets the
    status to [CANCELED] (with no message) whatever the previous status
    was, a running [SUBMITTED] or [WORKING] one as well as a terminal
    [COMPLETED] or [FAILED] one, and keeps history and artifacts. The
    store is arbitrary: in particular it may be the one left by a
    [tasks/send] suspended in the executor call. *)
Theorem C5_get_cancel params st s :
  get_default "id" params JNull = JStr s ->
  (st !! s = None ->
     handle_task_get params st = Err ValueError_task_not_found /\
     handle_task_cancel params st = (st, Err ValueError_task_not_found)) /\
  (forall t, s <> "" -> st !! s = Some t ->
     handle_task_cancel params st = (<[s := cancel_task t]> st, Ok (cancel_task t)) /\
     Task.status (cancel_task t) = TaskStatus.mk CANCELED None /\
     Task.history (cancel_task t) = Task.history t /\
     Task.artifacts (cancel_task t) = Task.artifacts t).
Proof.
  intros Hget. unfold handle_task_get, handle_task_cancel. rewrite Hget.
  split.
  - intros Hnone. simpl. rewrite Hnone.
    destruct (String.eqb s ""); simpl; split; reflexivity.
  - intros t Hne Hs.
    apply String.eqb_neq in Hne. simpl. rewrite Hne, Hs. simpl.
    repeat split.
Qed.

Lemma C5_get_cancel_witness :
  let st := fst (send_start [("id", JStr "t1"); ("text", JStr "hi")] "u1" "s1" ∅) in
  let t := Task.mk "t1" (Some "s1") (TaskStatus.mk WORKING None)
             [user_message "hi"] [] [] in
  get_default "id" [("id", JStr "t1")] JNull = JStr "t1" /\
  "t1" <> "" /\ st !! "t1" = Some t /\
  handle_task_cancel [("id", JStr "t1")] st =
    (<[ "t1" := cancel_task t ]> st, Ok (cancel_task t)) /\
  Task.status (cancel_task t) = TaskStatus.mk CANCELED None /\
  get_default "id" [("id", JStr "t2")] JNull = JStr "t2" /\ st !! "t2" = None /\
  handle_task_get [("id", JStr "t2")] st = Err ValueError_task_not_found.
Proof.
  intros st t.
  assert (L1 : st !! "t1" = Some t) by (vm_compute; reflexivity).
  assert (L2 : st !! "t2" = None) by (vm_compute; reflexivity).
  assert (N : "t1" <> "") by discriminate.
  destruct (proj2 (C5_get_cancel [("id", JStr "t1")] st "t1" eq_refl) t N L1)
    as [C [D _]].
  split; [reflexivity|]. split; [exact N|]. split; [exact L1|].
  split; [exact C|]. split; [exact D|].
  split; [reflexivity|]. split; [exact L2|].
  exact (proj1 (proj1 (C5_get_cancel [("id", JStr "t2")] st "t2" eq_refl) L2)).
Defined.

Lemma py_or_falsy a b : truthy a = false -> py_or a b = b.
Proof. unfold py_or. intros ->. reflexivity. Qed.

Lemma py_or_str_truthy i b : i <> "" -> py_or (JStr i) b = JStr i.
Proof.
  intros Hi. unfold py_or. simpl.
  apply String.eqb_neq in Hi. rewrite Hi. reflexivity.
Qed.

Lemma history_grows_by_run r o task :
  List.length (Task.history task) <
  List.length (Task.history (run_outcome r (append_user_message o task))).
Proof.
  destruct (run_outcome_grows r (append_user_message o task)) as [G _].
  apply prefix_length in G. simpl in G. rewrite length_app in G. simpl in G.
  lia.
Qed.

(** A successful submission stores its task under the resolved id. *)
Lemma submit_result executor params ut us st st' t :
  handle_task_send executor params ut us st = (st', Ok t) ->
  exists key task0,
    py_or (get_default "id" params JNull) (JStr ut) = JStr key /\
    st' = <[key := t]> st /\
    (st !! key = Some task0 \/ (st !! key = None /\ Task.id task0 = key)) /\
    Task.id t = Task.id task0 /\
    List.length (Task.history task0) < List.length (Task.history t).
Proof.
  case_send executor params ut us st.
  - rewrite Hrun. intros Hres. inversion Hres; subst.
    exists key, task0. split; [exact Hid|]. split; [reflexivity|].
    split; [destruct Hcase as [? | [? [? _]]]; auto|].
    split; [rewrite run_outcome_id; reflexivity|].
    apply history_grows_by_run.
  - rewrite H. discriminate.
  - rewrite H. discriminate.
Qed.

(** C6: (1) a submission without a (truthy) [id] stores its task under the
    id drawn from [uuid4()], which by the generator's collision freedom
    is not yet a key, so one new task is added; (2) two successful
    submissions resolving to the same id mutate one task: the second leaves
    the store's size unchanged and the task's history strictly longer;
    (3) in every reachable store, distinct keys hold tasks with distinct
    ids, so no two tasks share an id. *)
Theorem C6_task_identity :
  (forall executor params ut us st st' t,
     truthy (get_default "id" params JNull) = false ->
     st !! ut = None ->
     handle_task_send executor params ut us st = (st', Ok t) ->
     Task.id t = ut /\ st' = <[ut := t]> st /\ size st' = S (size st)) /\
  (forall ex1 ex2 p1 p2 ut1 us1 ut2 us2 i st st1 st2 t1 t2,
     py_or (get_default "id" p1 JNull) (JStr ut1) = JStr i ->
     py_or (get_default "id" p2 JNull) (JStr ut2) = JStr i ->
     handle_task_send ex1 p1 ut1 us1 st = (st1, Ok t1) ->
     handle_task_send ex2 p2 ut2 us2 st1 = (st2, Ok t2) ->
     st1 !! i = Some t1 /\ st2 = <[i := t2]> st1 /\ size st2 = size st1 /\
     List.length (Task.history t1) < List.length (Task.history t2)) /\
  (forall st, reachable st ->
     forall k1 k2 t1 t2, st !! k1 = Some t1 -> st !! k2 = Some t2 ->
       Task.id t1 = Task.id t2 -> k1 = k2).
Proof.
  split; [|split].
  - intros executor params ut us st st' t Hfalsy Hfresh H.
    destruct (submit_result _ _ _ _ _ _ _ H)
      as [key [task0 [Hid [-> [Hcase [Htid _]]]]]].
    rewrite py_or_falsy in Hid by exact Hfalsy. inversion Hid; subst key.
    destruct Hcase as [Hsome | [_ Hnew]]; [congruence|].
    split; [congruence|]. split; [reflexivity|].
    apply map_size_insert_None. exact Hfresh.
  - intros ex1 ex2 p1 p2 ut1 us1 ut2 us2 i st st1 st2 t1 t2 Hi1 Hi2 H1 H2.
    destruct (submit_result _ _ _ _ _ _ _ H1)
      as [k1 [task1 [Hk1 [-> _]]]].
    rewrite Hi1 in Hk1. inversion Hk1; subst k1.
    destruct (submit_result _ _ _ _ _ _ _ H2)
      as [k2 [task2 [Hk2 [-> [Hcase [_ Hlen]]]]]].
    rewrite Hi2 in Hk2. inversion Hk2; subst k2.
    rewrite lookup_insert_eq in Hcase.
    destruct Hcase as [Hsome | [Hnone _]]; [|discriminate].
    inversion Hsome; subst task2.
    split; [apply lookup_insert_eq|]. split; [reflexivity|].
    split; [|exact Hlen].
    apply map_size_insert_Some. rewrite lookup_insert_eq. eexists; reflexivity.
  - intros st Hreach k1 k2 t1 t2 H1 H2 Heq.
    pose proof (reachable_wf _ Hreach) as Hwf.
    destruct (Hwf _ _ H1) as [Hid1 _]. destruct (Hwf _ _ H2) as [Hid2 _].
    congruence.
Qed.

Lemma C6_task_identity_witness :
  let p1 := [("text", JStr "Calculate 25 * 4")] in
  let p2 := [("id", JStr "u1"); ("text", JStr "and again")] in
  let st1 := fst (handle_task_send echo_exec p1 "u1" "s1" ∅) in
  let t1 := Task.mk "u1" (Some "s1")
              (TaskStatus.mk COMPLETED (Some (Message.mk "agent" [text_part "100"])))
              [user_message "Calculate 25 * 4"; Message.mk "agent" [text_part "100"]]
              [response_artifact "100"] [] in
  let t2 := Task.mk "u1" (Some "s1")
              (TaskStatus.mk COMPLETED (Some (Message.mk "agent" [text_part "100"])))
              [user_message "Calculate 25 * 4"; Message.mk "agent" [text_part "100"];
               user_message "and again"; Message.mk "agent" [text_part "100"]]
              [response_artifact "100"; response_artifact "100"] [] in
  (Task.id t1 = "u1" /\ st1 = <[ "u1" := t1 ]> ∅ /\ size st1 = S (size (∅ : store))) /\
  (st1 !! "u1" = Some t1 /\
   fst (handle_task_send echo_exec p2 "u2" "s2" st1) = <[ "u1" := t2 ]> st1 /\
   size (fst (handle_task_send echo_exec p2 "u2" "s2" st1)) = size st1 /\
   List.length (Task.history t1) < List.length (Task.history t2)) /\
  (forall k1 k2 ta tb, st1 !! k1 = Some ta -> st1 !! k2 = Some tb ->
     Task.id ta = Task.id tb -> k1 = k2).
Proof.
  intros p1 p2 st1 t1 t2.
  destruct C6_task_identity as [A [B C]].
  assert (H1 : handle_task_send echo_exec p1 "u1" "s1" ∅ = (st1, Ok t1))
    by (vm_compute; reflexivity).
  assert (H2 : handle_task_send echo_exec p2 "u2" "s2" st1 =
               (fst (handle_task_send echo_exec p2 "u2" "s2" st1), Ok t2))
    by (vm_compute; reflexivity).
  split; [exact (A echo_exec p1 "u1" "s1" ∅ st1 t1 eq_refl eq_refl H1)|].
  split; [exact (B echo_exec echo_exec p1 p2 "u1" "s1" "u2" "s2" "u1" ∅ _ _ t1 t2
                   eq_refl eq_refl H1 H2)|].
  apply C. apply reach_send; [apply reach_empty | discriminate].
Defined.

(** C9 (counterexample): after a run whose reply had no AI text, the
    history holds an agent message with empty text; the next submission's
    conversation skips it instead of giving it an agent turn. *)
Lemma C9_empty_agent_message_skipped : ~ spec_full_conversation.
Proof.
  intros H.
  set (st := fst (handle_task_send silent_exec
                    [("id", JStr "t1"); ("text", JStr "hi")] "u1" "s1" ∅)).
  assert (R : reachable st).
  { apply reach_send; [apply reach_empty | discriminate]. }
  destruct (H [("id", JStr "t1"); ("text", JStr "again")] "u2" "s2" st _ "t1" _
              R eq_refl) as [t [Ht Hconv]].
  vm_compute in Ht. inversion Ht; subst t.
  vm_compute in Hconv. discriminate Hconv.
Qed.

Lemma build_conversation_single_text (h : list Message.t) :
  Forall single_text h ->
  build_conversation h =
  map (fun m => role_turn (Message.role m) (message_text m))
      (List.filter (fun m => negb (String.eqb (message_text m) "")) h).
Proof.
  induction 1 as [|m h [s Hs] _ IH]; [reflexivity|].
  assert (Hm : message_text m = s) by (unfold message_text; rewrite Hs; reflexivity).
  unfold build_conversation in IH |- *. simpl. rewrite Hs, Hm. simpl.
  destruct (String.eqb s "") eqn:E; simpl.
  - exact IH.
  - rewrite IH, Hm. reflexivity.
Qed.

(** C9 (amended): the conversation handed to the executor has one
    role-tagged turn ([HumanMessage] for user messages, [AIMessage] for the
    others) for every history message with non-empty text, in history
    order, the user message of this submission included (it is the last
    turn); messages with empty text give no turn; nothing is truncated. *)
Theorem C9_conversation_turns params ut us st st1 key conv :
  reachable st ->
  send_start params ut us st = (st1, Ok (key, conv)) ->
  exists s,
    extract_user_text params = Ok (JStr s) /\ s <> "" /\
    conv = map (fun m => role_turn (Message.role m) (message_text m))
             (List.filter (fun m => negb (String.eqb (message_text m) ""))
                (prior_history st key ++ [user_message s])) /\
    last conv = Some (HumanMessage s).
Proof.
  intros Hreach S.
  destruct (send_start_Ok _ _ _ _ _ _ _ S)
    as [s [task0 [E [Hs [_ [Hcase [_ Hconv]]]]]]].
  assert (Hprior : prior_history st key = Task.history task0 /\
                   Forall single_text (Task.history task0)).
  { unfold prior_history.
    destruct Hcase as [Hsome | [Hnone [_ [_ [Hh _]]]]].
    - rewrite Hsome. split; [reflexivity|].
      exact (proj2 (proj2 (reachable_wf _ Hreach _ _ Hsome))).
    - rewrite Hnone, Hh. split; [reflexivity | constructor]. }
  destruct Hprior as [Hprior Hsingle].
  assert (Hall : Forall single_text (Task.history task0 ++ [user_message s])).
  { apply Forall_app; split; [exact Hsingle|].
    constructor; [eexists; reflexivity | constructor]. }
  exists s. split; [exact E|]. split; [exact Hs|].
  rewrite Hprior, <- build_conversation_single_text by exact Hall.
  split; [exact Hconv|].
  rewrite Hconv, build_conversation_single_text by exact Hall.
  assert (Hu : List.filter (fun m => negb (String.eqb (message_text m) ""))
                 [user_message s] = [user_message s]).
  { simpl. unfold message_text. simpl.
    apply String.eqb_neq in Hs. rewrite Hs. reflexivity. }
  rewrite List.filter_app, Hu, map_app. cbn [map].
  apply last_snoc.
Qed.

Lemma C9_conversation_turns_witness :
  let st := fst (handle_task_send silent_exec
                   [("id", JStr "t1"); ("text", JStr "hi")] "u1" "s1" ∅) in
  let p := [("id", JStr "t1"); ("text", JStr "again")] in
  reachable st /\
  send_start p "u2" "s2" st =
    (fst (send_start p "u2" "s2" st),
     Ok ("t1", [HumanMessage "hi"; HumanMessage "again"])) /\
  exists s,
    extract_user_text p = Ok (JStr s) /\ s <> "" /\
    [HumanMessage "hi"; HumanMessage "again"] =
      map (fun m => role_turn (Message.role m) (message_text m))
        (List.filter (fun m => negb (String.eqb (message_text m) ""))
           (prior_history st "t1" ++ [user_message s])) /\
    last [HumanMessage "hi"; HumanMessage "again"] = Some (HumanMessage s).
Proof.
  intros st p.
  assert (R : reachable st).
  { apply reach_send; [apply reach_empty | discriminate]. }
  assert (S : send_start p "u2" "s2" st =
    (fst (send_start p "u2" "s2" st),
     Ok ("t1", [HumanMessage "hi"; HumanMessage "again"]))) by (vm_compute; reflexivity).
  split; [exact R|]. split; [exact S|].
  exact (C9_conversation_turns p "u2" "s2" st _ _ _ R S).
Defined.

(** C8 (counterexample): with the secret ["secret"] the header
    [" secret "] passes, although it is neither the secret nor
    ["Bearer secret"]; and with [A2A_API_KEY] unset the built-in default
    secret applies, so a request without the header is rejected. *)
Lemma C8_auth_counterexample : ~ spec_auth_configured /\ ~ spec_auth_unconfigured.
Proof.
  split.
  - intros H.
    destruct (H "secret" (Some " secret ") ltac:(discriminate)) as [H1 _].
    destruct (H1 eq_refl) as [a [Ha [-> | ->]]]; discriminate Ha.
  - intros H. specialize (H None). vm_compute in H. discriminate H.
Qed.

(** C8 (amended): the secret is [A2A_API_KEY], or ["demo-api-key-12345"]
    when that variable is unset. When the secret is empty every request
    passes. Otherwise a missing or empty Authorization header fails with
    "Missing Authorization header" (HTTP 401), and a header of the form
    ["Bearer " ++ token] or a non-empty [token], where [token] does not
    contain ["Bearer "], passes iff [token] with surrounding whitespace
    trimmed ([str.strip]) equals the secret, and otherwise fails with
    "Invalid API key" (HTTP 401). *)
Theorem C8_api_key_check env header :
  let key := API_KEY env in
  (env = None -> key = "demo-api-key-12345") /\
  (key = "" -> verify_api_key key header = Ok true) /\
  (key <> "" ->
     ((header = None \/ header = Some "") ->
        verify_api_key key header =
          Err (HTTPException 401%Z "Missing Authorization header")) /\
     (forall token, str_contains "Bearer " token = false ->
        (header = Some ("Bearer " ++ token) \/ (header = Some token /\ token <> "")) ->
        (verify_api_key key header = Ok true <-> py_strip token = key) /\
        (py_strip token <> key ->
           verify_api_key key header = Err (HTTPException 401%Z "Invalid API key")))).
Proof.
  intros key. split; [intros ->; reflexivity|]. split.
  - intros Hk. unfold verify_api_key. rewrite Hk. reflexivity.
  - intros Hk. apply String.eqb_neq in Hk as Hkb. split.
    + intros [-> | ->]; unfold verify_api_key; rewrite Hkb; reflexivity.
    + intros token Hc Hform.
      assert (Hh : exists a, header = Some a /\ a <> "" /\
                             py_replace "Bearer " "" a = token).
      { destruct Hform as [-> | [-> Hne]].
        - eexists. split; [reflexivity|]. split; [discriminate|].
          apply py_replace_bearer, Hc.
        - eexists. split; [reflexivity|]. split; [exact Hne|].
          unfold py_replace. apply replace_go_absent, Hc. }
      destruct Hh as [a [-> [Hne Hr]]].
      apply String.eqb_neq in Hne.
      unfold verify_api_key. rewrite Hkb, Hne, Hr. split.
      * destruct (String.eqb (py_strip token) key) eqn:E; split; intros H.
        -- apply String.eqb_eq in E. exact E.
        -- reflexivity.
        -- discriminate H.
        -- apply String.eqb_neq in E. contradiction.
      * intros Hn. apply String.eqb_neq in Hn. rewrite Hn. reflexivity.
Qed.

Lemma C8_api_key_check_witness :
  let key := API_KEY None in
  let token := ("demo-api-key-12345" ++ String (ascii_of_nat 160) "")%string in
  key <> "" /\ str_contains "Bearer " token = false /\
  (Some token = Some ("Bearer " ++ token) \/ (Some token = Some token /\ token <> "")) /\
  py_strip token = key /\
  verify_api_key key (Some token) = Ok true.
Proof.
  intros key token.
  assert (Hk : key <> "") by discriminate.
  assert (Hc : str_contains "Bearer " token = false) by reflexivity.
  assert (Hf : Some token = Some ("Bearer " ++ token) \/
               (Some token = Some token /\ token <> "")).
  { right. split; [reflexivity|discriminate]. }
  assert (Hs : py_strip token = key) by (vm_compute; reflexivity).
  split; [exact Hk|]. split; [exact Hc|]. split; [exact Hf|]. split; [exact Hs|].
  destruct (proj2 (proj2 (proj2 (C8_api_key_check None (Some token))) Hk) token Hc Hf)
    as [I _].
  exact (proj2 I Hs).
Defined.

(** C2 (code_bug): a payload whose ["message"] is a non-empty string (or an
    object whose ["parts"] is [null]) yields no text by any rule, yet the
    code raises [AttributeError] ([TypeError]) from [message_data.get] (the
    [for] loop) before its no-content check, instead of the no-content
    [ValueError]; the store is left unchanged. *)
Theorem C2_malformed_message_not_no_content executor ut us st :
  extract_user_text [("message", JStr "hello")] = Err AttributeError /\
  handle_task_send executor [("message", JStr "hello")] ut us st =
    (st, Err AttributeError) /\
  extract_user_text [("message", JObj [("parts", JNull)])] = Err TypeError /\
  handle_task_send executor [("message", JObj [("parts", JNull)])] ut us st =
    (st, Err TypeError).
Proof. repeat split. Qed.

(** The payload shapes the normaliser accepts, in its priority order. *)
Example extract_nested_parts :
  extract_user_text
    [("message", JObj [("role", JStr "user");
                       ("parts", JArr [JObj [("type", JStr "image")];
                                       JObj [("type", JStr "text"); ("text", JStr "a")]])]);
     ("text", JStr "b")] = Ok (JStr "a").
Proof. reflexivity. Qed.

Example extract_message_direct_text :
  extract_user_text [("message", JObj [("content", JStr "a")]); ("text", JStr "b")]
  = Ok (JStr "a").
Proof. reflexivity. Qed.

Example extract_top_level_order :
  extract_user_text [("input", JStr "i"); ("prompt", JStr "p"); ("query", JStr "q")]
  = Ok (JStr "q") /\
  extract_user_text [("input", JStr "i"); ("prompt", JStr "p")] = Ok (JStr "p") /\
  extract_user_text [("input", JStr "i")] = Ok (JStr "i").
Proof. repeat split. Qed.

Example extract_empty_payload :
  handle_task_send echo_exec [] "u1" "s1" ∅ = (∅, Err ValueError_no_content).
Proof. reflexivity. Qed.

(* ------------------------------------------------------------------ *)
(** ** Further properties of the server and the calculator tool *)

Lemma py_or_JStr_not_null a u : py_or a (JStr u) <> JNull.
Proof. unfold py_or. destruct (truthy a) eqn:T; [|discriminate]. intros ->. discriminate. Qed.

Lemma send_start_Err_new params ut us st st1 e :
  send_start params ut us st = (st1, Err e) ->
  st1 = st \/
  (e = ValidationError /\
   exists k t, st !! k = None /\ st1 = <[k := t]> st /\
     py_or (get_default "id" params JNull) (JStr ut) = JStr k /\
     Task.id t = k /\ Task.status t = TaskStatus.mk SUBMITTED None /\
     Task.history t = [] /\ Task.artifacts t = [] /\ Task.metadata t = []).
Proof.
  unfold send_start.
  destruct (extract_user_text params) as [u|e'] eqn:E;
    [|intros H; inversion H; auto].
  destruct (truthy u) eqn:T; simpl; [|intros H; inversion H; auto].
  set (tid := py_or (get_default "id" params JNull) (JStr ut)).
  destruct (store_lookup tid st) as [[[k t]|]|e'] eqn:L;
    [| |intros H; inversion H; auto].
  - unfold add_user_message.
    destruct (part_text u) as [o|e'] eqn:P; [discriminate|].
    intros H; inversion H; auto.
  - destruct (new_task tid _) as [t|e'] eqn:N; [|intros H; inversion H; auto].
    destruct (new_task_Ok _ _ _ N) as [Htid [Hs [Hh [Ha Hm]]]].
    pose proof (store_lookup_None _ _ _ Htid L) as Hnone.
    unfold add_user_message.
    destruct (part_text u) as [o|e'] eqn:P; [discriminate|].
    intros H; inversion H; subst. right. split; [eapply part_text_Err; eauto|].
    exists (Task.id t), t. auto 10.
Qed.

(** The session id and metadata of the task a successful [send_start]
    stored: those of the stored task, or for a new task the resolved
    session id and an empty metadata dict. *)
Lemma send_start_session params ut us st st1 key conv :
  send_start params ut us st = (st1, Ok (key, conv)) ->
  exists t1, st1 !! key = Some t1 /\
    match st !! key with
    | Some t0 => Task.sessionId t1 = Task.sessionId t0 /\
                 Task.metadata t1 = Task.metadata t0
    | None => exists s,
        py_or (py_or (get_default "sessionId" params JNull)
                     (get_default "session_id" params JNull)) (JStr us) = JStr s /\
        Task.sessionId t1 = Some s /\ Task.metadata t1 = []
    end.
Proof.
  unfold send_start.
  destruct (extract_user_text params) as [u|e] eqn:E; [|discriminate].
  destruct (truthy u) eqn:T; simpl; [|discriminate].
  set (tid := py_or (get_default "id" params JNull) (JStr ut)).
  set (sid := py_or (py_or (get_default "sessionId" params JNull)
                      (get_default "session_id" params JNull)) (JStr us)).
  destruct (store_lookup tid st) as [[[k t]|]|e] eqn:L; [| |discriminate].
  - apply store_lookup_Some in L as [Htid Hk].
    unfold add_user_message.
    destruct (part_text u) as [o|e] eqn:P; [|discriminate].
    intros H; inversion H; subst.
    eexists. rewrite lookup_insert_eq. split; [reflexivity|].
    rewrite Hk. split; reflexivity.
  - destruct (new_task tid sid) as [t|e] eqn:N; [|discriminate].
    destruct (new_task_Ok _ _ _ N) as [Htid _].
    pose proof (store_lookup_None _ _ _ Htid L) as Hnone.
    unfold add_user_message.
    destruct (part_text u) as [o|e] eqn:P; [|discriminate].
    intros H; inversion H; subst.
    eexists. rewrite lookup_insert_eq. split; [reflexivity|].
    rewrite Hnone. unfold new_task in N. rewrite Htid in N.
    destruct sid as [| | | s | |] eqn:Es; try discriminate.
    + exfalso. exact (py_or_JStr_not_null _ _ Es).
    + exists s. inversion N; subst. simpl. auto.
Qed.

Lemma run_outcome_session r task :
  Task.sessionId (run_outcome r task) = Task.sessionId task /\
  Task.metadata (run_outcome r task) = Task.metadata task.
Proof. destruct r; split; reflexivity. Qed.

(** Submitting then reading a task: in a reachable store, a successful
    [handle_task_send] leaves the returned task under its own id, and
    [handle_task_get] on that id returns exactly that task. *)
Theorem send_then_get executor params ut us st st' t :
  reachable st -> ut <> "" ->
  handle_task_send executor params ut us st = (st', Ok t) ->
  st' !! Task.id t = Some t /\
  handle_task_get [("id", JStr (Task.id t))] st' = Ok t.
Proof.
  intros Hreach Hut H.
  destruct (submit_result _ _ _ _ _ _ _ H)
    as [key [task0 [Hid [-> [Hcase [Htid _]]]]]].
  assert (Hkey : Task.id t = key).
  { rewrite Htid. destruct Hcase as [Hs | [_ Hi]]; [|exact Hi].
    exact (proj1 (reachable_wf _ Hreach _ _ Hs)). }
  pose proof (py_or_str_nonempty _ _ _ Hid Hut) as Hne.
  rewrite Hkey. split; [apply lookup_insert_eq|].
  unfold handle_task_get. simpl.
  apply String.eqb_neq in Hne. rewrite Hne. simpl.
  rewrite lookup_insert_eq. reflexivity.
Qed.

Lemma send_then_get_witness :
  reachable ∅ /\ "u1" <> "" /\
  handle_task_send echo_exec [("text", JStr "hi")] "u1" "s1" ∅ =
    (fst (handle_task_send echo_exec [("text", JStr "hi")] "u1" "s1" ∅),
     Ok (Task.mk "u1" (Some "s1")
           (TaskStatus.mk COMPLETED (Some (Message.mk "agent" [text_part "100"])))
           [user_message "hi"; Message.mk "agent" [text_part "100"]]
           [response_artifact "100"] [])) /\
  handle_task_get [("id", JStr "u1")]
    (fst (handle_task_send echo_exec [("text", JStr "hi")] "u1" "s1" ∅)) =
    Ok (Task.mk "u1" (Some "s1")
           (TaskStatus.mk COMPLETED (Some (Message.mk "agent" [text_part "100"])))
           [user_message "hi"; Message.mk "agent" [text_part "100"]]
           [response_artifact "100"] []).
Proof.
  assert (R : reachable ∅) by constructor.
  assert (U : "u1" <> "") by discriminate.
  assert (S : handle_task_send echo_exec [("text", JStr "hi")] "u1" "s1" ∅ =
    (fst (handle_task_send echo_exec [("text", JStr "hi")] "u1" "s1" ∅),
     Ok (Task.mk "u1" (Some "s1")
           (TaskStatus.mk COMPLETED (Some (Message.mk "agent" [text_part "100"])))
           [user_message "hi"; Message.mk "agent" [text_part "100"]]
           [response_artifact "100"] []))) by (vm_compute; reflexivity).
  split; [exact R|]. split; [exact U|]. split; [exact S|].
  exact (proj2 (send_then_get _ _ _ _ _ _ _ R U S)).
Defined.

(** A submission that raises never removes or changes a stored task. The
    store is either unchanged or, when pydantic rejects a non-string text
    after the task was created (lines 283-290), it holds one new task with
    status [SUBMITTED], no history and no artifacts. *)
Theorem send_error_keeps_tasks executor params ut us st st' e :
  handle_task_send executor params ut us st = (st', Err e) ->
  (forall k t, st !! k = Some t -> st' !! k = Some t) /\
  (st' = st \/
   (e = ValidationError /\
    exists k t, st !! k = None /\ st' = <[k := t]> st /\
      Task.status t = TaskStatus.mk SUBMITTED None /\
      Task.history t = [] /\ Task.artifacts t = [])).
Proof.
  intros H. apply handle_task_send_Err in H.
  destruct (send_start_Err_new _ _ _ _ _ _ H)
    as [-> | [He [k [t [Hn [-> [_ [_ [Hs [Hh [Ha _]]]]]]]]]]].
  - split; [auto|left; reflexivity].
  - split.
    + intros k' t' Hk'. rewrite lookup_insert. case_decide; [congruence|exact Hk'].
    + right. split; [exact He|]. exists k, t. auto 6.
Qed.

Lemma send_error_keeps_tasks_witness :
  handle_task_send echo_exec [("text", JNum 5)] "u1" "s1" ∅ =
    ({[ "u1" := Task.mk "u1" (Some "s1") (TaskStatus.mk SUBMITTED None) [] [] [] ]},
     Err ValidationError) /\
  ((forall k t, (∅ : store) !! k = Some t ->
      ({[ "u1" := Task.mk "u1" (Some "s1") (TaskStatus.mk SUBMITTED None) [] [] [] ]} : store)
        !! k = Some t) /\
   (({[ "u1" := Task.mk "u1" (Some "s1") (TaskStatus.mk SUBMITTED None) [] [] [] ]} : store) = ∅ \/
    (ValidationError = ValidationError /\
     exists k t, (∅ : store) !! k = None /\
       ({[ "u1" := Task.mk "u1" (Some "s1") (TaskStatus.mk SUBMITTED None) [] [] [] ]} : store)
         = <[k := t]> ∅ /\
       Task.status t = TaskStatus.mk SUBMITTED None /\
       Task.history t = [] /\ Task.artifacts t = []))).
Proof.
  assert (S : handle_task_send echo_exec [("text", JNum 5)] "u1" "s1" ∅ =
    ({[ "u1" := Task.mk "u1" (Some "s1") (TaskStatus.mk SUBMITTED None) [] [] [] ]},
     Err ValidationError)) by (vm_compute; reflexivity).
  split; [exact S|].
  exact (send_error_keeps_tasks _ _ _ _ _ _ _ S).
Defined.

(** A submission changes only the task under its resolved id, and a
    cancellation only the task under its ["id"]: every other key keeps its
    task. *)
Theorem requests_touch_one_task :
  (forall executor params ut us st k,
     py_or (get_default "id" params JNull) (JStr ut) <> JStr k ->
     fst (handle_task_send executor params ut us st) !! k = st !! k) /\
  (forall params st k,
     get_default "id" params JNull <> JStr k ->
     fst (handle_task_cancel params st) !! k = st !! k).
Proof.
  split.
  - intros executor params ut us st k Hk.
    case_send executor params ut us st.
    + rewrite Hrun. simpl. rewrite lookup_insert_ne; [reflexivity|].
      intros <-. exact (Hk Hid).
    + rewrite H. simpl. subst. reflexivity.
    + rewrite H. simpl. subst st1. rewrite lookup_insert_ne; [reflexivity|].
      intros <-. exact (Hk Hid).
  - intros params st k Hk. unfold handle_task_cancel.
    destruct (negb (truthy _)); [reflexivity|].
    destruct (store_lookup _ st) as [[[k' t]|]|e] eqn:L; simpl; try reflexivity.
    apply store_lookup_Some in L as [Hid _].
    rewrite lookup_insert_ne; [reflexivity|]. intros <-. exact (Hk Hid).
Qed.

Lemma requests_touch_one_task_witness :
  py_or (get_default "id" [("id", JStr "t2"); ("text", JStr "hi")] JNull) (JStr "u1")
    <> JStr "t1" /\
  fst (handle_task_send echo_exec [("id", JStr "t2"); ("text", JStr "hi")] "u1" "s1"
         (fst (handle_task_send echo_exec [("id", JStr "t1"); ("text", JStr "a")] "u0" "s0" ∅)))
    !! "t1" =
  fst (handle_task_send echo_exec [("id", JStr "t1"); ("text", JStr "a")] "u0" "s0" ∅)
    !! "t1" /\
  get_default "id" [("id", JStr "t2")] JNull <> JStr "t1" /\
  fst (handle_task_cancel [("id", JStr "t2")]
         (fst (handle_task_send echo_exec [("id", JStr "t1"); ("text", JStr "a")] "u0" "s0" ∅)))
    !! "t1" =
  fst (handle_task_send echo_exec [("id", JStr "t1"); ("text", JStr "a")] "u0" "s0" ∅)
    !! "t1".
Proof.
  assert (H1 : py_or (get_default "id" [("id", JStr "t2"); ("text", JStr "hi")] JNull)
                 (JStr "u1") <> JStr "t1") by (vm_compute; discriminate).
  assert (H2 : get_default "id" [("id", JStr "t2")] JNull <> JStr "t1")
    by (vm_compute; discriminate).
  split; [exact H1|]. split; [exact (proj1 requests_touch_one_task _ _ _ _ _ _ H1)|].
  split; [exact H2|]. exact (proj2 requests_touch_one_task _ _ _ H2).
Defined.

(** A successful cancellation leaves a [CANCELED] task that
    [handle_task_get] returns as stored. Cancelling again succeeds too: it
    rewrites only the entry of that task, with a task whose state is
    [CANCELED] (no message) and whose id, session id, history, artifacts
    and metadata are those of the first result; only the status object,
    and so its timestamp, is new. *)
Theorem cancel_idempotent params st st1 t :
  handle_task_cancel params st = (st1, Ok t) ->
  TaskStatus.state (Task.status t) = CANCELED /\
  handle_task_get params st1 = Ok t /\
  exists k t', get_default "id" params JNull = JStr k /\
    handle_task_cancel params st1 = (<[k := t']> st1, Ok t') /\
    Task.status t' = TaskStatus.mk CANCELED None /\
    Task.id t' = Task.id t /\ Task.sessionId t' = Task.sessionId t /\
    Task.history t' = Task.history t /\ Task.artifacts t' = Task.artifacts t /\
    Task.metadata t' = Task.metadata t.
Proof.
  unfold handle_task_cancel, handle_task_get.
  destruct (negb (truthy _)) eqn:T; [discriminate|].
  destruct (store_lookup _ st) as [[[k t0]|]|e] eqn:L; try discriminate.
  apply store_lookup_Some in L as [Hid Hk].
  intros H; inversion H; subst. rewrite Hid. simpl.
  rewrite lookup_insert_eq. split; [reflexivity|]. split; [reflexivity|].
  exists k, (cancel_task (cancel_task t0)). split; [reflexivity|].
  repeat split.
Qed.

Lemma cancel_idempotent_witness :
  handle_task_cancel [("id", JStr "t1")] (fst (handle_task_send failing_exec
      [("id", JStr "t1"); ("text", JStr "a")] "u0" "s0" ∅)) =
    (fst (handle_task_cancel [("id", JStr "t1")] (fst (handle_task_send failing_exec
      [("id", JStr "t1"); ("text", JStr "a")] "u0" "s0" ∅))),
     Ok (Task.mk "t1" (Some "s0") (TaskStatus.mk CANCELED None) [user_message "a"] [] [])) /\
  TaskStatus.state (TaskStatus.mk CANCELED None) = CANCELED /\
  handle_task_get [("id", JStr "t1")] (fst (handle_task_cancel [("id", JStr "t1")]
      (fst (handle_task_send failing_exec [("id", JStr "t1"); ("text", JStr "a")] "u0" "s0" ∅))))
    = Ok (Task.mk "t1" (Some "s0") (TaskStatus.mk CANCELED None) [user_message "a"] [] []).
Proof.
  assert (S : handle_task_cancel [("id", JStr "t1")] (fst (handle_task_send failing_exec
      [("id", JStr "t1"); ("text", JStr "a")] "u0" "s0" ∅)) =
    (fst (handle_task_cancel [("id", JStr "t1")] (fst (handle_task_send failing_exec
      [("id", JStr "t1"); ("text", JStr "a")] "u0" "s0" ∅))),
     Ok (Task.mk "t1" (Some "s0") (TaskStatus.mk CANCELED None) [user_message "a"] [] [])))
    by (vm_compute; reflexivity).
  destruct (cancel_idempotent _ _ _ _ S) as [A [B _]].
  split; [exact S|]. split; [exact A|exact B].
Defined.

Lemma extract_id_text k s :
  s <> "" -> extract_user_text [("id", JStr k); ("text", JStr s)] = Ok (JStr s).
Proof.
  intros Hs. apply String.eqb_neq in Hs.
  unfold extract_user_text, get_default, dict_get, py_or.
  repeat (cbn; rewrite !Hs). reflexivity.
Qed.

(** [CANCELED] is not terminal: after a task was cancelled, any
    submission whose id resolves to it and which carries a non-empty text
    runs the task again, whatever the executor: the user message is
    appended, the executor gets the whole history as conversation, and the
    task ends [COMPLETED] (history and artifacts extended by the reply) or
    [FAILED] (history extended by the user message only). *)
Theorem resubmit_after_cancel executor cparams params st st1 tc k s ut us :
  get_default "id" cparams JNull = JStr k ->
  handle_task_cancel cparams st = (st1, Ok tc) ->
  py_or (get_default "id" params JNull) (JStr ut) = JStr k ->
  extract_user_text params = Ok (JStr s) -> s <> "" ->
  exists t2,
    handle_task_send executor params ut us st1 = (<[k := t2]> st1, Ok t2) /\
    (forall msgs,
       executor (build_conversation (Task.history tc ++ [user_message s])) = Reply msgs ->
       TaskStatus.state (Task.status t2) = COMPLETED /\
       Task.history t2 =
         (Task.history tc ++
          [user_message s; Message.mk "agent" [text_part (response_text_of msgs)]])%list /\
       Task.artifacts t2 =
         (Task.artifacts tc ++ [response_artifact (response_text_of msgs)])%list) /\
    (forall e,
       executor (build_conversation (Task.history tc ++ [user_message s])) = Raised e ->
       TaskStatus.state (Task.status t2) = FAILED /\
       Task.history t2 = (Task.history tc ++ [user_message s])%list /\
       Task.artifacts t2 = Task.artifacts tc).
Proof.
  intros Hcid Hc Hid Hx Hs.
  unfold handle_task_cancel in Hc. rewrite Hcid in Hc. simpl in Hc.
  destruct (String.eqb k "") eqn:Ek; simpl in Hc; [discriminate|].
  destruct (st !! k) as [t0|] eqn:Hk; simpl in Hc; [|discriminate].
  inversion Hc; subst st1 tc.
  unfold handle_task_send, send_start.
  rewrite Hx, Hid.
  assert (Hsb := Hs). apply String.eqb_neq in Hsb.
  simpl. rewrite Hsb. simpl. rewrite lookup_insert_eq.
  unfold add_user_message. simpl.
  rewrite insert_insert_eq. rewrite send_finish_inserted.
  eexists. split; [rewrite insert_insert_eq; reflexivity|]. split.
  - intros msgs Hr. unfold user_message, text_part in Hr. rewrite Hr. simpl.
    rewrite <- app_assoc. split; [reflexivity|]. split; reflexivity.
  - intros e Hr. unfold user_message, text_part in Hr. rewrite Hr. simpl.
    split; [reflexivity|]. split; reflexivity.
Qed.

Lemma resubmit_after_cancel_witness :
  let st := fst (send_start [("id", JStr "t1"); ("text", JStr "a")] "u0" "s0" ∅) in
  let p := [("sessionId", JStr "other"); ("message", JObj [("parts",
              JArr [JObj [("type", JStr "text"); ("text", JStr "b")]])]);
            ("id", JStr "t1")] in
  get_default "id" [("id", JStr "t1")] JNull = JStr "t1" /\
  handle_task_cancel [("id", JStr "t1")] st =
    (fst (handle_task_cancel [("id", JStr "t1")] st),
     Ok (Task.mk "t1" (Some "s0") (TaskStatus.mk CANCELED None) [user_message "a"] [] [])) /\
  py_or (get_default "id" p JNull) (JStr "u1") = JStr "t1" /\
  extract_user_text p = Ok (JStr "b") /\ "b" <> "" /\
  exists t2,
    handle_task_send failing_exec p "u1" "s1" (fst (handle_task_cancel [("id", JStr "t1")] st)) =
      (<[ "t1" := t2 ]> (fst (handle_task_cancel [("id", JStr "t1")] st)), Ok t2).
Proof.
  intros st p.
  assert (C : handle_task_cancel [("id", JStr "t1")] st =
    (fst (handle_task_cancel [("id", JStr "t1")] st),
     Ok (Task.mk "t1" (Some "s0") (TaskStatus.mk CANCELED None) [user_message "a"] [] [])))
    by (vm_compute; reflexivity).
  assert (I : py_or (get_default "id" p JNull) (JStr "u1") = JStr "t1") by reflexivity.
  assert (X : extract_user_text p = Ok (JStr "b")) by (vm_compute; reflexivity).
  assert (B : "b" <> "") by discriminate.
  split; [reflexivity|]. split; [exact C|]. split; [exact I|]. split; [exact X|].
  split; [exact B|].
  destruct (resubmit_after_cancel failing_exec [("id", JStr "t1")] p st _ _ "t1" "b"
              "u1" "s1" eq_refl C I X B) as [t2 [H _]].
  exists t2. exact H.
Defined.

(** The session id and metadata of a submitted task: a resubmission keeps
    those of the stored task (the request's session id is ignored); a new
    task gets the first truthy of [sessionId], [session_id] and the fresh
    uuid, and an empty metadata dict. *)
Theorem submit_session executor params ut us st st' t :
  handle_task_send executor params ut us st = (st', Ok t) ->
  exists key,
    py_or (get_default "id" params JNull) (JStr ut) = JStr key /\
    st' !! key = Some t /\
    match st !! key with
    | Some t0 => Task.sessionId t = Task.sessionId t0 /\
                 Task.metadata t = Task.metadata t0
    | None => exists s,
        py_or (py_or (get_default "sessionId" params JNull)
                     (get_default "session_id" params JNull)) (JStr us) = JStr s /\
        Task.sessionId t = Some s /\ Task.metadata t = []
    end.
Proof.
  unfold handle_task_send.
  destruct (send_start params ut us st) as [st1 [[key conv]|e]] eqn:S;
    [|discriminate].
  destruct (send_start_Ok _ _ _ _ _ _ _ S) as [s [task0 [_ [_ [Hid [_ [Hst1 _]]]]]]].
  destruct (send_start_session _ _ _ _ _ _ _ S) as [t1 [Ht1 Hm]].
  unfold send_finish. rewrite Ht1. intros H; inversion H; subst.
  exists key. split; [exact Hid|]. rewrite lookup_insert_eq. split; [reflexivity|].
  destruct (run_outcome_session (executor conv) t1) as [E1 E2].
  destruct (st !! key); rewrite ?E1, ?E2; exact Hm.
Qed.

Lemma submit_session_witness :
  handle_task_send echo_exec [("id", JStr "t1"); ("sessionId", JStr "other"); ("text", JStr "b")]
    "u1" "s1"
    (fst (handle_task_send echo_exec [("id", JStr "t1"); ("text", JStr "a")] "u0" "s0" ∅)) =
    (fst (handle_task_send echo_exec
       [("id", JStr "t1"); ("sessionId", JStr "other"); ("text", JStr "b")] "u1" "s1"
       (fst (handle_task_send echo_exec [("id", JStr "t1"); ("text", JStr "a")] "u0" "s0" ∅))),
     Ok (Task.mk "t1" (Some "s0")
           (TaskStatus.mk COMPLETED (Some (Message.mk "agent" [text_part "100"])))
           [user_message "a"; Message.mk "agent" [text_part "100"];
            user_message "b"; Message.mk "agent" [text_part "100"]]
           [response_artifact "100"; response_artifact "100"] [])) /\
  exists key,
    py_or (get_default "id" [("id", JStr "t1"); ("sessionId", JStr "other");
                             ("text", JStr "b")] JNull) (JStr "u1") = JStr key /\
    fst (handle_task_send echo_exec
       [("id", JStr "t1"); ("sessionId", JStr "other"); ("text", JStr "b")] "u1" "s1"
       (fst (handle_task_send echo_exec [("id", JStr "t1"); ("text", JStr "a")] "u0" "s0" ∅)))
      !! key = Some (Task.mk "t1" (Some "s0")
           (TaskStatus.mk COMPLETED (Some (Message.mk "agent" [text_part "100"])))
           [user_message "a"; Message.mk "agent" [text_part "100"];
            user_message "b"; Message.mk "agent" [text_part "100"]]
           [response_artifact "100"; response_artifact "100"] []) /\
    match fst (handle_task_send echo_exec [("id", JStr "t1"); ("text", JStr "a")] "u0" "s0" ∅)
            !! key with
    | Some t0 => Some "s0" = Task.sessionId t0 /\ ([] : dict) = Task.metadata t0
    | None => exists s,
        py_or (py_or (get_default "sessionId" [("id", JStr "t1"); ("sessionId", JStr "other");
                             ("text", JStr "b")] JNull)
                     (get_default "session_id" [("id", JStr "t1"); ("sessionId", JStr "other");
                             ("text", JStr "b")] JNull)) (JStr "s1") = JStr s /\
        Some "s0" = Some s /\ ([] : dict) = []
    end.
Proof.
  assert (S : handle_task_send echo_exec
      [("id", JStr "t1"); ("sessionId", JStr "other"); ("text", JStr "b")] "u1" "s1"
      (fst (handle_task_send echo_exec [("id", JStr "t1"); ("text", JStr "a")] "u0" "s0" ∅)) =
    (fst (handle_task_send echo_exec
       [("id", JStr "t1"); ("sessionId", JStr "other"); ("text", JStr "b")] "u1" "s1"
       (fst (handle_task_send echo_exec [("id", JStr "t1"); ("text", JStr "a")] "u0" "s0" ∅))),
     Ok (Task.mk "t1" (Some "s0")
           (TaskStatus.mk COMPLETED (Some (Message.mk "agent" [text_part "100"])))
           [user_message "a"; Message.mk "agent" [text_part "100"];
            user_message "b"; Message.mk "agent" [text_part "100"]]
           [response_artifact "100"; response_artifact "100"] []))) by (vm_compute; reflexivity).
  split; [exact S|].
  exact (submit_session _ _ _ _ _ _ _ S).
Defined.

(** In every reachable store, every task's [metadata] is the empty dict:
    no handler ever sets it, whatever the request carries. *)
Theorem reachable_metadata_empty st :
  reachable st -> forall k t, st !! k = Some t -> Task.metadata t = [].
Proof.
  induction 1 as [| executor params ut us st Hr IH Hut | params st Hr IH].
  - intros k t H. rewrite lookup_empty in H. discriminate.
  - intros k t.
    destruct (handle_task_send executor params ut us st) as [st' r] eqn:H. simpl.
    destruct r as [t'|e].
    + destruct (submit_session _ _ _ _ _ _ _ H) as [key [Hid [_ Hm]]].
      destruct (submit_result _ _ _ _ _ _ _ H) as [key' [_ [Hid' [-> _]]]].
      assert (key' = key) as -> by congruence.
      rewrite lookup_insert. case_decide as E.
      * subst k. intros Ht; inversion Ht; subst t'.
        destruct (st !! key) as [t0|] eqn:Hs.
        -- destruct Hm as [_ ->]. exact (IH _ _ Hs).
        -- destruct Hm as [s [_ [_ ->]]]. reflexivity.
      * apply IH.
    + apply handle_task_send_Err in H.
      destruct (send_start_Err_new _ _ _ _ _ _ H)
        as [-> | [_ [k' [t0 [_ [-> [_ [_ [_ [_ [_ Hm]]]]]]]]]]]; [apply IH|].
      rewrite lookup_insert. case_decide; [intros Ht; inversion Ht; subst; exact Hm|apply IH].
  - intros k t. unfold handle_task_cancel.
    destruct (negb (truthy _)); [apply IH|].
    destruct (store_lookup _ st) as [[[k' t0]|]|e] eqn:L; simpl; try apply IH.
    apply store_lookup_Some in L as [_ Hk].
    rewrite lookup_insert. case_decide; [|apply IH].
    intros Ht; inversion Ht; subst. simpl. exact (IH _ _ Hk).
Qed.

Lemma reachable_metadata_empty_witness :
  reachable (fst (handle_task_send echo_exec
    [("text", JStr "hi"); ("metadata", JObj [("k", JStr "v")])] "u1" "s1" ∅)) /\
  fst (handle_task_send echo_exec
    [("text", JStr "hi"); ("metadata", JObj [("k", JStr "v")])] "u1" "s1" ∅) !! "u1" =
    Some (Task.mk "u1" (Some "s1")
           (TaskStatus.mk COMPLETED (Some (Message.mk "agent" [text_part "100"])))
           [user_message "hi"; Message.mk "agent" [text_part "100"]]
           [response_artifact "100"] []) /\
  Task.metadata (Task.mk "u1" (Some "s1")
           (TaskStatus.mk COMPLETED (Some (Message.mk "agent" [text_part "100"])))
           [user_message "hi"; Message.mk "agent" [text_part "100"]]
           [response_artifact "100"] []) = [].
Proof.
  assert (R : reachable (fst (handle_task_send echo_exec
    [("text", JStr "hi"); ("metadata", JObj [("k", JStr "v")])] "u1" "s1" ∅)))
    by (apply reach_send; [constructor | discriminate]).
  assert (L : fst (handle_task_send echo_exec
    [("text", JStr "hi"); ("metadata", JObj [("k", JStr "v")])] "u1" "s1" ∅) !! "u1" =
    Some (Task.mk "u1" (Some "s1")
           (TaskStatus.mk COMPLETED (Some (Message.mk "agent" [text_part "100"])))
           [user_message "hi"; Message.mk "agent" [text_part "100"]]
           [response_artifact "100"] [])) by (vm_compute; reflexivity).
  split; [exact R|]. split; [exact L|].
  exact (reachable_metadata_empty _ R _ _ L).
Defined.


Lemma first_ai_content_spec l :
  (first_ai_content l = "" /\ Forall no_ai_text l) \/
  exists pre post, l = (pre ++ AIMessage (first_ai_content l) :: post)%list /\
    first_ai_content l <> "" /\ Forall no_ai_text pre.
Proof.
  induction l as [|m l IH]; [left; split; [reflexivity|constructor]|].
  destruct m as [c|c|c]; simpl.
  - destruct IH as [[E F] | [pre [post [E [Hne F]]]]].
    + left. split; [exact E|]. constructor; [intros ? H; discriminate|exact F].
    + right. exists (HumanMessage c :: pre), post. rewrite E at 1. split; [reflexivity|].
      split; [exact Hne|]. constructor; [intros ? H; discriminate|exact F].
  - destruct (String.eqb c "") eqn:Ec.
    + apply String.eqb_eq in Ec. subst c.
      destruct IH as [[E F] | [pre [post [E [Hne F]]]]].
      * left. split; [exact E|]. constructor; [intros ? H; inversion H; reflexivity|exact F].
      * right. exists (AIMessage "" :: pre), post. rewrite E at 1. split; [reflexivity|].
        split; [exact Hne|]. constructor; [intros ? H; inversion H; reflexivity|exact F].
    + right. exists [], l. split; [reflexivity|].
      split; [apply String.eqb_neq; exact Ec|constructor].
  - destruct IH as [[E F] | [pre [post [E [Hne F]]]]].
    + left. split; [exact E|]. constructor; [intros ? H; discriminate|exact F].
    + right. exists (OtherMessage c :: pre), post. rewrite E at 1. split; [reflexivity|].
      split; [exact Hne|]. constructor; [intros ? H; discriminate|exact F].
Qed.

(** The response text of a reply is either empty, when no [AIMessage] in
    it has non-empty content, or the content of the last [AIMessage] with
    non-empty content: every later message is not an [AIMessage] with
    content. *)
Theorem response_text_last_ai msgs :
  (response_text_of msgs = "" /\ Forall no_ai_text msgs) \/
  exists pre post,
    msgs = (pre ++ AIMessage (response_text_of msgs) :: post)%list /\
    response_text_of msgs <> "" /\ Forall no_ai_text post.
Proof.
  unfold response_text_of.
  destruct (first_ai_content_spec (rev msgs)) as [[E F] | [pre [post [E [Hne F]]]]].
  - left. split; [exact E|]. rewrite <- (rev_involutive msgs).
    apply Forall_rev. exact F.
  - right. exists (rev post), (rev pre).
    split; [|split; [exact Hne|apply Forall_rev; exact F]].
    rewrite <- (rev_involutive msgs), E at 1.
    rewrite rev_app_distr. simpl. rewrite <- app_assoc. reflexivity.
Qed.

(** The conversation handed to the executor has only [HumanMessage] and
    [AIMessage] turns, each with non-empty content, one for each history
    part whose text is non-empty. *)
Theorem conversation_turns_nonempty h :
  Forall (fun m => match m with
                   | HumanMessage c | AIMessage c => c <> ""
                   | OtherMessage _ => False
                   end) (build_conversation h) /\
  List.length (build_conversation h) =
    List.length (List.filter (fun p => match Part.text p with
                                  | Some s => negb (String.eqb s "")
                                  | None => false
                                  end) (flat_map Message.parts h)).
Proof.
  induction h as [|m h [IHF IHL]]; [split; [constructor|reflexivity]|].
  unfold build_conversation in *. simpl.
  rewrite List.filter_app, !length_app. split; [apply Forall_app; split; [|exact IHF]|].
  - induction (Message.parts m) as [|p ps IHp]; simpl; [constructor|].
    apply Forall_app; split; [|exact IHp].
    destruct (Part.text p) as [s|]; [|constructor].
    destruct (String.eqb s "") eqn:Es; [constructor|].
    apply String.eqb_neq in Es.
    constructor; [|constructor].
    destruct (String.eqb (Message.role m) "user"); exact Es.
  - f_equal; [|exact IHL].
    induction (Message.parts m) as [|p ps IHp]; simpl; [reflexivity|].
    rewrite length_app, IHp.
    destruct (Part.text p) as [s|]; [|reflexivity].
    destruct (String.eqb s ""); reflexivity.
Qed.

(** Every JSON-RPC response has [jsonrpc = "2.0"] and echoes the request
    id; for the three task methods it carries either a result and no error
    or no result and an error with code -32000; any other method gets the
    error -32601 "Method not found: <method>" and leaves the store as it
    was. *)
Theorem jsonrpc_envelope executor req ut us st :
  let m := JSONRPCRequest.method req in
  let res := handle_jsonrpc executor req ut us st in
  JSONRPCResponse.jsonrpc (snd res) = "2.0" /\
  JSONRPCResponse.id (snd res) = JSONRPCRequest.id req /\
  ((m = "tasks/send" \/ m = "tasks/get" \/ m = "tasks/cancel") ->
     (exists t, JSONRPCResponse.result (snd res) = Some t /\
                JSONRPCResponse.error (snd res) = None) \/
     (JSONRPCResponse.result (snd res) = None /\
      exists e, JSONRPCResponse.error (snd res) = Some ((-32000)%Z, MsgStr e))) /\
  ((m <> "tasks/send" /\ m <> "tasks/get" /\ m <> "tasks/cancel") ->
     res = (st, JSONRPCResponse.mk "2.0" None
                  (Some ((-32601)%Z, MsgText ("Method not found: " ++ m)))
                  (JSONRPCRequest.id req))).
Proof.
  intros m res. subst m res. unfold handle_jsonrpc.
  set (p := match JSONRPCRequest.params req with Some p => p | None => [] end).
  destruct (String.eqb (JSONRPCRequest.method req) "tasks/send") eqn:E1;
  [|destruct (String.eqb (JSONRPCRequest.method req) "tasks/get") eqn:E2;
  [|destruct (String.eqb (JSONRPCRequest.method req) "tasks/cancel") eqn:E3]].
  - apply String.eqb_eq in E1.
    destruct (handle_task_send executor p ut us st) as [st' [t|e]]; simpl;
      (split; [reflexivity|]); (split; [reflexivity|]);
      (split; [intros _ | intros [H _]; contradiction]); eauto.
  - apply String.eqb_eq in E2.
    destruct (handle_task_get p st) as [t|e]; simpl;
      (split; [reflexivity|]); (split; [reflexivity|]);
      (split; [intros _ | intros [_ [H _]]; contradiction]); eauto.
  - apply String.eqb_eq in E3.
    destruct (handle_task_cancel p st) as [st' [t|e]]; simpl;
      (split; [reflexivity|]); (split; [reflexivity|]);
      (split; [intros _ | intros [_ [_ H]]; contradiction]); eauto.
  - simpl. split; [reflexivity|]. split; [reflexivity|]. split; [|reflexivity].
    apply String.eqb_neq in E1, E2, E3. intros [H|[H|H]]; contradiction.
Qed.

(** A JSON-RPC request without params (or with an empty params object) is
    answered with the -32000 error of "Task not found" for [tasks/get] and
    [tasks/cancel] and of the no-content [ValueError] for [tasks/send], and
    the store is left as it was. *)
Theorem jsonrpc_missing_params executor m ps rid ut us st :
  (ps = None \/ ps = Some []) ->
  (m = "tasks/get" \/ m = "tasks/cancel") ->
  handle_jsonrpc executor (JSONRPCRequest.mk "2.0" m ps rid) ut us st =
    (st, JSONRPCResponse.mk "2.0" None
           (Some ((-32000)%Z, MsgStr ValueError_task_not_found)) rid) /\
  handle_jsonrpc executor (JSONRPCRequest.mk "2.0" "tasks/send" ps rid) ut us st =
    (st, JSONRPCResponse.mk "2.0" None
           (Some ((-32000)%Z, MsgStr ValueError_no_content)) rid).
Proof.
  intros Hps Hm.
  destruct Hps as [-> | ->]; (split; [destruct Hm as [-> | ->]|]); reflexivity.
Qed.

Lemma jsonrpc_missing_params_witness :
  (@None dict = None \/ @None dict = Some ([] : dict)) /\
  ("tasks/cancel" = "tasks/get" \/ "tasks/cancel" = "tasks/cancel") /\
  handle_jsonrpc echo_exec (JSONRPCRequest.mk "2.0" "tasks/cancel" None (Some (JNum 7))) "u" "s" ∅ =
    (∅, JSONRPCResponse.mk "2.0" None
           (Some ((-32000)%Z, MsgStr ValueError_task_not_found)) (Some (JNum 7))).
Proof.
  assert (P : @None dict = None \/ @None dict = Some ([] : dict)) by (left; reflexivity).
  assert (M : "tasks/cancel" = "tasks/get" \/ "tasks/cancel" = "tasks/cancel")
    by (right; reflexivity).
  split; [exact P|]. split; [exact M|].
  exact (proj1 (jsonrpc_missing_params echo_exec _ _ (Some (JNum 7)) "u" "s" ∅ P M)).
Defined.

Lemma jsonrpc_envelope_witness :
  JSONRPCResponse.jsonrpc (snd (handle_jsonrpc echo_exec
      (JSONRPCRequest.mk "2.0" "tasks/list" None (Some (JNum 1))) "u" "s" ∅)) = "2.0" /\
  ("tasks/list" <> "tasks/send" /\ "tasks/list" <> "tasks/get" /\
   "tasks/list" <> "tasks/cancel") /\
  handle_jsonrpc echo_exec
      (JSONRPCRequest.mk "2.0" "tasks/list" None (Some (JNum 1))) "u" "s" ∅ =
    (∅, JSONRPCResponse.mk "2.0" None
          (Some ((-32601)%Z, MsgText ("Method not found: " ++ "tasks/list")))
          (Some (JNum 1))).
Proof.
  assert (M : "tasks/list" <> "tasks/send" /\ "tasks/list" <> "tasks/get" /\
              "tasks/list" <> "tasks/cancel") by (repeat split; discriminate).
  destruct (jsonrpc_envelope echo_exec
      (JSONRPCRequest.mk "2.0" "tasks/list" None (Some (JNum 1))) "u" "s" ∅)
    as [J [_ [_ U]]].
  split; [exact J|]. split; [exact M|]. exact (U M).
Defined.

(** The REST endpoints do not catch the "Task not found" [ValueError]:
    [GET /tasks/{id}] and [POST /tasks/{id}/cancel] on an unknown id answer
    with an internal server error (500), while the JSON-RPC [tasks/get]
    answers with the -32000 error; on a stored id they return the task and
    the cancelled task. The store is left as it was on the error paths. *)
Theorem rest_task_errors_uncaught task_id st :
  (st !! task_id = None ->
     task_get task_id st = (st, InternalServerError ValueError_task_not_found) /\
     task_cancel task_id st = (st, InternalServerError ValueError_task_not_found) /\
     forall executor rid ut us,
       handle_jsonrpc executor
         (JSONRPCRequest.mk "2.0" "tasks/get" (Some [("id", JStr task_id)]) rid) ut us st =
       (st, JSONRPCResponse.mk "2.0" None
              (Some ((-32000)%Z, MsgStr ValueError_task_not_found)) rid)) /\
  (forall t, task_id <> "" -> st !! task_id = Some t ->
     task_get task_id st = (st, TaskDump t) /\
     task_cancel task_id st = (<[task_id := cancel_task t]> st, TaskDump (cancel_task t))).
Proof.
  unfold task_get, task_cancel, handle_jsonrpc, handle_task_get, handle_task_cancel.
  simpl. split.
  - intros Hn. destruct (String.eqb task_id ""); simpl; [repeat split|].
    rewrite Hn. repeat split.
  - intros t Hne Ht. apply String.eqb_neq in Hne. rewrite Hne. simpl.
    rewrite Ht. split; reflexivity.
Qed.

Lemma rest_task_errors_uncaught_witness :
  (∅ : store) !! "missing" = None /\
  task_get "missing" ∅ = (∅, InternalServerError ValueError_task_not_found).
Proof.
  assert (N : (∅ : store) !! "missing" = None) by reflexivity.
  split; [exact N|]. exact (proj1 (proj1 (rest_task_errors_uncaught "missing" ∅) N)).
Defined.

(** The two ways of submitting a task agree: [POST /tasks/send] with a
    JSON object body and the JSON-RPC method [tasks/send] with that object
    as [params] leave the same store; the REST answer is the task exactly
    when the JSON-RPC [result] is that task, and a 400 carrying an
    exception exactly when the JSON-RPC [error] is the -32000 error
    carrying it. The JSON-RPC response echoes the request id. *)
Theorem rest_rpc_send_agree executor d rid ut us st :
  fst (task_send executor (Some (JObj d)) ut us st) =
    fst (handle_jsonrpc executor (JSONRPCRequest.mk "2.0" "tasks/send" (Some d) rid) ut us st) /\
  JSONRPCResponse.id
    (snd (handle_jsonrpc executor (JSONRPCRequest.mk "2.0" "tasks/send" (Some d) rid) ut us st))
    = rid /\
  (forall t,
     snd (task_send executor (Some (JObj d)) ut us st) = TaskDump t <->
     JSONRPCResponse.result
       (snd (handle_jsonrpc executor (JSONRPCRequest.mk "2.0" "tasks/send" (Some d) rid) ut us st))
     = Some t) /\
  (forall e,
     snd (task_send executor (Some (JObj d)) ut us st) = BadRequest (RestExn e) <->
     JSONRPCResponse.error
       (snd (handle_jsonrpc executor (JSONRPCRequest.mk "2.0" "tasks/send" (Some d) rid) ut us st))
     = Some ((-32000)%Z, MsgStr e)).
Proof.
  unfold task_send, handle_jsonrpc. simpl.
  destruct (handle_task_send executor d ut us st) as [st' [t|e]]; simpl;
    (split; [reflexivity|]); (split; [reflexivity|]);
    split; intros x; split; intros H; inversion H; subst; reflexivity.
Qed.

(** A configured key with leading or trailing whitespace (one that
    [strip()] changes) rejects every request, since the header token is
    always stripped. *)
Theorem padded_key_rejects_all api_key hdr :
  api_key <> "" -> py_strip api_key <> api_key ->
  verify_api_key api_key hdr <> Ok true.
Proof.
  intros Hk Hs. unfold verify_api_key.
  apply String.eqb_neq in Hk. rewrite Hk.
  destruct hdr as [a|]; [|discriminate].
  destruct (String.eqb a ""); [discriminate|].
  destruct (String.eqb (py_strip (py_replace "Bearer " "" a)) api_key) eqn:E;
    [|discriminate].
  apply String.eqb_eq in E. exfalso. apply Hs.
  rewrite <- E. apply py_strip_idem.
Qed.

Lemma padded_key_rejects_all_witness :
  ("demo-api-key-12345" ++ String (ascii_of_nat 160) "") <> "" /\
  py_strip ("demo-api-key-12345" ++ String (ascii_of_nat 160) "")
    <> ("demo-api-key-12345" ++ String (ascii_of_nat 160) "") /\
  verify_api_key ("demo-api-key-12345" ++ String (ascii_of_nat 160) "")
    (Some ("demo-api-key-12345" ++ String (ascii_of_nat 160) "")) <> Ok true.
Proof.
  assert (H1 : ("demo-api-key-12345" ++ String (ascii_of_nat 160) "") <> "") by discriminate.
  assert (H2 : py_strip ("demo-api-key-12345" ++ String (ascii_of_nat 160) "")
    <> ("demo-api-key-12345" ++ String (ascii_of_nat 160) "")) by (vm_compute; discriminate).
  split; [exact H1|]. split; [exact H2|].
  exact (padded_key_rejects_all _ _ H1 H2).
Defined.

(** For a non-empty key without surrounding whitespace and not containing
    ["Bearer "], both the bare key and ["Bearer " ++ key] are accepted, and
    the header ["Bearer "] alone is rejected as "Invalid API key". *)
Theorem bearer_or_plain_accepted api_key :
  api_key <> "" -> py_strip api_key = api_key ->
  str_contains "Bearer " api_key = false ->
  verify_api_key api_key (Some api_key) = Ok true /\
  verify_api_key api_key (Some ("Bearer " ++ api_key)) = Ok true /\
  verify_api_key api_key (Some "Bearer ") =
    Err (HTTPException 401%Z "Invalid API key").
Proof.
  intros Hk Hs Hc.
  assert (Hkb := Hk). apply String.eqb_neq in Hkb.
  unfold verify_api_key. rewrite Hkb. split; [|split].
  - unfold py_replace. rewrite replace_go_absent by exact Hc.
    rewrite Hs, String.eqb_refl. reflexivity.
  - simpl. rewrite py_replace_bearer by exact Hc.
    rewrite Hs, String.eqb_refl. reflexivity.
  - simpl. destruct api_key; [contradiction|reflexivity].
Qed.

Lemma bearer_or_plain_accepted_witness :
  "demo-api-key-12345" <> "" /\ py_strip "demo-api-key-12345" = "demo-api-key-12345" /\
  str_contains "Bearer " "demo-api-key-12345" = false /\
  verify_api_key "demo-api-key-12345" (Some ("Bearer " ++ "demo-api-key-12345")) = Ok true.
Proof.
  assert (H1 : "demo-api-key-12345" <> "") by discriminate.
  assert (H2 : py_strip "demo-api-key-12345" = "demo-api-key-12345") by reflexivity.
  assert (H3 : str_contains "Bearer " "demo-api-key-12345" = false) by reflexivity.
  split; [exact H1|]. split; [exact H2|]. split; [exact H3|].
  exact (proj1 (proj2 (bearer_or_plain_accepted _ H1 H2 H3))).
Defined.
